(** * AI Dummy Data Generator: a shallow embedding of the generation pipeline

    The development follows the TypeScript sources of the application:

    - [types.ts]: the [DataFormat] enum and [GenerationOptions];
    - [services/geminiService.ts]: [generateDummyData], the prompt
      compiler and the streaming client;
    - [App.tsx]: the React state and [handleGenerate];
    - [components/DataDisplay.tsx]: the rendering of the output, with
      [handleCopy] and [handleDownload];
    - [utils/fileUtils.ts]: [getMimeType], [getFileExtension] and
      [downloadData].

    JavaScript strings are sequences of UTF-16 code units, so a string is
    a [list N] here.  Every literal of the sources is ASCII and is written
    with [lit]. *)

From Stdlib Require Import Ascii String DecimalString DecimalZ.
From Stdlib Require Import List NArith ZArith Bool Lia.
Import ListNotations.

Set Implicit Arguments.

(** ** JavaScript strings *)

Module Js.

Definition jsstring := list N.

Definition lit (s : string) : jsstring :=
  map N_of_ascii (list_ascii_of_string s).

Definition empty : jsstring := [].

(** The double quote, U+0022, and the line feed, U+000A. *)
Definition dq : jsstring := [34%N].
Definition lf : N := 10%N.

(** [a === b] on strings. *)
Fixpoint eqb (a b : jsstring) : bool :=
  match a, b with
  | [], [] => true
  | x :: a', y :: b' => if N.eqb x y then eqb a' b' else false
  | _, _ => false
  end.

(** A string is falsy exactly when it is empty. *)
Definition truthy (s : jsstring) : bool :=
  match s with [] => false | _ :: _ => true end.

(** [s.startsWith(p)] and [s.includes(p)]. *)
Fixpoint startsWith (s p : jsstring) {struct p} : bool :=
  match p, s with
  | [], _ => true
  | _ :: _, [] => false
  | y :: p', x :: s' => if N.eqb x y then startsWith s' p' else false
  end.

Fixpoint includes (s p : jsstring) : bool :=
  if startsWith s p then true
  else match s with
       | [] => false
       | _ :: s' => includes s' p
       end.


(** WhiteSpace and LineTerminator code points of ECMAScript, the ones
    [String.prototype.trim] strips; all of them are in the Basic
    Multilingual Plane, hence single code units. *)
Definition isWhiteSpace (c : N) : bool :=
  (N.eqb c 9 || N.eqb c 10 || N.eqb c 11 || N.eqb c 12 || N.eqb c 13
   || N.eqb c 32 || N.eqb c 160 || N.eqb c 5760
   || (N.leb 8192 c && N.leb c 8202)
   || N.eqb c 8232 || N.eqb c 8233 || N.eqb c 8239 || N.eqb c 8287
   || N.eqb c 12288 || N.eqb c 65279)%N.

Fixpoint trimStart (s : jsstring) : jsstring :=
  match s with
  | [] => []
  | c :: s' => if isWhiteSpace c then trimStart s' else s
  end.

Definition trimEnd (s : jsstring) : jsstring :=
  rev (trimStart (rev s)).

Definition trim (s : jsstring) : jsstring :=
  trimEnd (trimStart s).

(** Empty or made of white space only. *)
Definition blank (s : jsstring) : bool := forallb isWhiteSpace s.

(** A string without a line feed. *)
Definition oneLine (l : jsstring) : Prop := ~ In lf l.

(** [s.split('\n')]: never the empty array, the empty string gives one
    empty line. *)
Fixpoint split_lf (s : jsstring) : list jsstring :=
  match s with
  | [] => [[]]
  | c :: s' =>
      if N.eqb c lf then [] :: split_lf s'
      else match split_lf s' with
           | [] => [[c]]
           | l :: ls => (c :: l) :: ls
           end
  end.

(** [ls.join('\n')]. *)
Fixpoint join_lf (ls : list jsstring) : jsstring :=
  match ls with
  | [] => []
  | [l] => l
  | l :: ls' => l ++ lf :: join_lf ls'
  end.

(** [ls.slice(0, n)]. *)
Definition slice0 (A : Type) (n : nat) (ls : list A) : list A :=
  firstn n ls.

(** The decimal rendering of an integer inside a template or JSX. *)
Definition ofZ (z : Z) : jsstring :=
  lit (NilEmpty.string_of_int (Z.to_int z)).

(** The ASCII part of [String.prototype.toLowerCase]. *)
Definition lowerUnit (c : N) : N :=
  if (N.leb 65 c && N.leb c 90)%N then (c + 32)%N else c.

Definition isAscii (c : N) : bool := N.ltb c 128.

End Js.

Import Js.
Arguments lit s%_string.

(** ** types.ts *)

Module DataFormat.
Definition JSON : jsstring := lit "JSON".
Definition CSV : jsstring := lit "CSV".
Definition XML : jsstring := lit "XML".
Definition TXT : jsstring := lit "TXT".

(** [Object.values(DataFormat)]. *)
Definition values : list jsstring := [JSON; CSV; XML; TXT].
End DataFormat.

Module GenerationOptions.
Record t := {
  dateFormat : jsstring;
  decimalPlaces : jsstring
}.
End GenerationOptions.

(** ** utils/fileUtils.ts *)

Module FileUtils.

Definition getMimeType (format : jsstring) : jsstring :=
  if eqb format DataFormat.JSON then lit "application/json"
  else if eqb format DataFormat.CSV then lit "text/csv"
  else if eqb format DataFormat.XML then lit "application/xml"
  else if eqb format DataFormat.TXT then lit "text/plain"
  else lit "text/plain".

(** What [downloadData] does to the page, in program order. *)
Record Blob := { blobParts : jsstring; blobType : jsstring }.

Inductive DomEffect :=
| CreateObjectURL (b : Blob)
| CreateAnchor (href : Blob) (download : jsstring)
| AppendChild
| Click
| RemoveChild
| RevokeObjectURL (b : Blob).

Section WithToLowerCase.
(** [String.prototype.toLowerCase] is the engine's; the model takes it
    as given. *)
Variable toLowerCase : jsstring -> jsstring.

Definition getFileExtension (format : jsstring) : jsstring :=
  toLowerCase format.

Definition downloadData (content format : jsstring) : list DomEffect :=
  if negb (truthy content) then []
  else
    let mimeType := getMimeType format in
    let extension := getFileExtension format in
    let filename := lit "dummy-data." ++ extension in
    let blob := {| blobParts := content; blobType := mimeType |} in
    [ CreateObjectURL blob;
      CreateAnchor blob filename;
      AppendChild;
      Click;
      RemoveChild;
      RevokeObjectURL blob ].
End WithToLowerCase.

End FileUtils.

(** The export table as the specification words it: the MIME type and
    the extension of each format, and the MIME type of anything else. *)

Module ExportTable.
Definition rows : list (jsstring * (jsstring * jsstring)) :=
  [ (DataFormat.JSON, (lit "application/json", lit "json"));
    (DataFormat.CSV, (lit "text/csv", lit "csv"));
    (DataFormat.XML, (lit "application/xml", lit "xml"));
    (DataFormat.TXT, (lit "text/plain", lit "txt")) ].

Definition defaultMime : jsstring := lit "text/plain".

Definition row (format : jsstring) : option (jsstring * jsstring) :=
  option_map snd (find (fun r => eqb format (fst r)) rows).

Definition mime (format : jsstring) : jsstring :=
  match row format with
  | Some r => fst r
  | None => defaultMime
  end.
End ExportTable.

(** ** Asynchronous code

    An [async] function runs against a world [W] and settles: it is
    fulfilled with a value or rejected with the value thrown.  [await]
    is [bind]; the model covers one run of a handler, from the event to
    the settlement of its promise, over a stream that ends. *)

Module Async.

Inductive Settled (E A : Type) :=
| Fulfilled (a : A)
| Rejected (e : E).
Arguments Fulfilled {E A} a.
Arguments Rejected {E A} e.

Definition t (W E A : Type) := W -> Settled E A * W.

Section Ops.
Variables W E : Type.

Definition ret (A : Type) (a : A) : t W E A :=
  fun w => (Fulfilled a, w).

Definition throw (A : Type) (e : E) : t W E A :=
  fun w => (Rejected e, w).

Definition bind (A B : Type) (m : t W E A) (k : A -> t W E B) : t W E B :=
  fun w =>
    match m w with
    | (Fulfilled a, w') => k a w'
    | (Rejected e, w') => (Rejected e, w')
    end.

Definition modify (f : W -> W) : t W E unit :=
  fun w => (Fulfilled tt, f w).

(** [try { body } catch (e) { handler e }]. *)
Definition tryCatch (A : Type) (body : t W E A) (handler : E -> t W E A)
  : t W E A :=
  fun w =>
    match body w with
    | (Fulfilled a, w') => (Fulfilled a, w')
    | (Rejected e, w') => handler e w'
    end.

(** [try { body } finally { fin }]: the settlement of [body] stands
    unless [fin] itself throws. *)
Definition tryFinally (A : Type) (body : t W E A) (fin : t W E unit)
  : t W E A :=
  fun w =>
    match body w with
    | (r, w') =>
        match fin w' with
        | (Fulfilled _, w'') => (r, w'')
        | (Rejected e, w'') => (Rejected e, w'')
        end
    end.

(** [for (const x of xs) { body x }]. *)
Fixpoint forEach (X : Type) (xs : list X) (body : X -> t W E unit)
  : t W E unit :=
  match xs with
  | [] => ret tt
  | x :: xs' => bind (body x) (fun _ => forEach xs' body)
  end.
End Ops.

Arguments ret {W E A} a.
Arguments throw {W E A} e.
Arguments bind {W E A B} m k.
Arguments modify {W E} f.
Arguments tryCatch {W E A} body handler.
Arguments tryFinally {W E A} body fin.
Arguments forEach {W E X} xs body.

End Async.

Import Async.

Declare Scope async_scope.
Delimit Scope async_scope with async.
Notation "x <- m ;; k" := (bind m (fun x => k))
  (at level 61, m at next level, right associativity) : async_scope.
Notation "m ;; k" := (bind m (fun _ => k))
  (at level 61, right associativity) : async_scope.

(** ** services/geminiService.ts *)

Module GeminiService.

(** What the SDK throws or rejects with. *)
Inductive Failure :=
| AuthFailure
| QuotaFailure
| NetworkFailure
| MalformedResponse.

Record Request := {
  model : jsstring;
  contents : jsstring;
  systemInstruction : jsstring
}.

(** A chunk of the response stream; its [text] getter may be
    [undefined]. *)
Record Chunk := { text : option jsstring }.

(** A response stream that ends: the chunks it yields, then the end of
    the stream or a failure thrown by the iterator. *)
Record ResponseStream := {
  chunks : list Chunk;
  ending : option Failure
}.

(** The service behind [ai.models.generateContentStream]: the awaited
    call is rejected, or a stream is opened. *)
Inductive Upstream :=
| Refused (e : Failure)
| Opened (s : ResponseStream).

Record ConsoleEntry := {
  label : option jsstring;
  thrown : Failure
}.

(** The world of a run: the requests sent so far and the console, both
    oldest first, and the state of the caller ([C]), which the
    [onChunk] callback updates. *)
Record World (C : Type) := {
  requests : list Request;
  console : list ConsoleEntry;
  client : C
}.

Section WithClient.
Variable C : Type.

Definition sendRequest (r : Request) (w : World C) : World C :=
  {| requests := requests w ++ [r];
     console := console w;
     client := client w |}.

Definition logError (e : ConsoleEntry) (w : World C) : World C :=
  {| requests := requests w;
     console := console w ++ [e];
     client := client w |}.

Definition updateClient (f : C -> C) (w : World C) : World C :=
  {| requests := requests w;
     console := console w;
     client := f (client w) |}.

Definition consoleError (l : option jsstring) (e : Failure)
  : Async.t (World C) Failure unit :=
  modify (logError {| label := l; thrown := e |}).

Definition generateContentStream (upstream : Request -> Upstream)
    (r : Request) : Async.t (World C) Failure ResponseStream :=
  fun w =>
    match upstream r with
    | Refused e => (Rejected e, sendRequest r w)
    | Opened s => (Fulfilled s, sendRequest r w)
    end.

(** [for await (const chunk of responseStream) { body chunk }]. *)
Definition forAwait (s : ResponseStream)
    (body : Chunk -> Async.t (World C) Failure unit)
  : Async.t (World C) Failure unit :=
  (forEach (chunks s) body ;;
   match ending s with
   | None => ret tt
   | Some e => throw e
   end)%async.
End WithClient.

Definition indent2 : jsstring := lit "  ".

Definition specificInstructions (format : jsstring) : jsstring :=
  if eqb format DataFormat.JSON then
    join_lf
      [ empty;
        lit "      - Generate valid JSON syntax.";
        lit "      - Support nested objects and arrays deeply if requested.";
        lit "      - Use specific data types (boolean, numbers, null) correctly, do not wrap everything in strings unless necessary.";
        lit "      " ]
  else if eqb format DataFormat.CSV then
    join_lf
      [ empty;
        lit "      - Generate valid CSV with a header row.";
        lit "      - If nested data is requested, flatten it using dot notation for headers (e.g., 'address.city') or understandable conventions.";
        lit "      - Enclose strings containing commas in quotes.";
        lit "      " ]
  else if eqb format DataFormat.XML then
    join_lf
      [ empty;
        lit "      - Generate valid XML with a single root element (e.g., <root> or <data> if not specified).";
        lit "      - Use semantic tags based on property names.";
        lit "      - Handle nested structures as nested elements.";
        lit "      " ]
  else if eqb format DataFormat.TXT then
    join_lf
      [ empty;
        lit "      - Format as plain text or structured text as requested (e.g., lists, paragraphs).";
        lit "      " ]
  else empty.

Definition roundingInstruction (n : jsstring) : jsstring :=
  lit "Round all floating-point numbers to exactly " ++ n
    ++ lit " decimal places.".

Definition formattingRules (options : GenerationOptions.t) : jsstring :=
  join_lf
    [ empty;
      lit "  STRICT FORMATTING RULES:";
      lit "  1. **Date Format**: All date fields must strictly follow this format: "
        ++ dq ++ GenerationOptions.dateFormat options ++ dq ++ lit ". ";
      lit "     - If " ++ dq ++ lit "Unix Timestamp" ++ dq
        ++ lit " is requested, return an integer (milliseconds since epoch).";
      lit "     - If " ++ dq ++ lit "ISO 8601" ++ dq
        ++ lit " is requested, use YYYY-MM-DDTHH:mm:ss.sssZ.";
      lit "  2. **Number Precision**: "
        ++ (if negb (eqb (GenerationOptions.decimalPlaces options)
                         (lit "default"))
            then roundingInstruction (GenerationOptions.decimalPlaces options)
            else lit "Use standard precision for numbers.");
      lit "  " ].

(** The template of the system instruction around its two holes. *)
Definition assemble (rules specific : jsstring) : jsstring :=
  join_lf
    [ lit "You are a sophisticated dummy data generator engine.";
      lit "  Your task is to generate realistic, diverse, and structurally correct data based on the user's description.";
      lit "  ";
      lit "  CORE RULES:";
      lit "  1. Output ONLY the raw data. Do NOT include markdown code blocks (like ```json), explanatory text, or conversational filler.";
      lit "  2. **Complex Structures**: You are capable of generating deeply nested JSON, relational data, and complex object schemas.";
      lit "  3. **Data Types**: Respect requested types (Enums, Booleans, Floats, Dates). ";
      lit "     - If a user asks for " ++ dq ++ lit "status (Active, Inactive)"
        ++ dq ++ lit ", randomly assign these values.";
      lit "     - If a user asks for " ++ dq ++ lit "boolean" ++ dq
        ++ lit ", output raw true/false.";
      lit "  4. **Quantity**: Adhere strictly to the requested number of items.";
      lit "  ";
      indent2 ++ rules;
      empty;
      lit "  FORMAT SPECIFIC INSTRUCTIONS:";
      indent2 ++ specific;
      lit "  " ].

(** The prompt compiler: the pure prefix of [generateDummyData]. *)
Definition compileSystemInstruction (format : jsstring)
    (options : GenerationOptions.t) : jsstring :=
  assemble (formattingRules options) (specificInstructions format).

Definition fullPrompt (userPrompt format : jsstring) : jsstring :=
  lit "Generate data in " ++ format
    ++ lit " format based on this request: " ++ dq ++ userPrompt ++ dq.

Definition buildRequest (userPrompt format : jsstring)
    (options : GenerationOptions.t) : Request :=
  {| model := lit "gemini-3-flash-preview";
     contents := fullPrompt userPrompt format;
     systemInstruction := compileSystemInstruction format options |}.

Section Generate.
Variable C : Type.
Variable upstream : Request -> Upstream.

Definition generateDummyData (userPrompt format : jsstring)
    (options : GenerationOptions.t) (onChunk : jsstring -> C -> C)
  : Async.t (World C) Failure unit :=
  tryCatch
    (responseStream <-
       generateContentStream upstream
         (buildRequest userPrompt format options) ;;
     forAwait responseStream
       (fun chunk =>
          match text chunk with
          | Some fragment =>
              if truthy fragment
              then modify (updateClient (onChunk fragment))
              else ret tt
          | None => ret tt
          end))%async
    (fun error =>
       consoleError (Some (lit "Error calling Gemini API:")) error).
End Generate.

End GeminiService.

(** ** App.tsx *)

Module App.
Import GeminiService.

(** The seven [useState] cells of the component. *)
Record State := {
  prompt : jsstring;
  format : jsstring;
  dateFormat : jsstring;
  decimalPlaces : jsstring;
  generatedData : jsstring;
  isLoading : bool;
  error : option jsstring
}.

Definition setGeneratedData (f : jsstring -> jsstring) (s : State) : State :=
  {| prompt := prompt s; format := format s; dateFormat := dateFormat s;
     decimalPlaces := decimalPlaces s;
     generatedData := f (generatedData s);
     isLoading := isLoading s; error := error s |}.

Definition setIsLoading (b : bool) (s : State) : State :=
  {| prompt := prompt s; format := format s; dateFormat := dateFormat s;
     decimalPlaces := decimalPlaces s;
     generatedData := generatedData s;
     isLoading := b; error := error s |}.

Definition setError (e : option jsstring) (s : State) : State :=
  {| prompt := prompt s; format := format s; dateFormat := dateFormat s;
     decimalPlaces := decimalPlaces s;
     generatedData := generatedData s;
     isLoading := isLoading s; error := e |}.

(** The values [useState] starts from. *)
Definition initial : State :=
  {| prompt := lit "10 users with a name, email, address, and a unique ID from 1 to 10";
     format := DataFormat.JSON;
     dateFormat := lit "ISO 8601";
     decimalPlaces := lit "default";
     generatedData := empty;
     isLoading := false;
     error := None |}.

Definition validationMessage : jsstring :=
  lit "Please enter a description for the data you want to generate.".

Definition failureMessage : jsstring :=
  lit "Failed to generate data. Please check your API key and try again.".

Definition set (f : State -> State)
  : Async.t (World State) Failure unit :=
  modify (updateClient f).

Section Handler.
Variable upstream : Request -> Upstream.

(** The handler closes over the state of the render it was created
    in, which is the state the run starts from. *)
Definition handleGenerate : Async.t (World State) Failure unit :=
  fun w =>
    let s := client w in
    if negb (truthy (trim (prompt s))) then
      set (setError (Some validationMessage)) w
    else
      (set (setIsLoading true) ;;
       set (setError None) ;;
       set (setGeneratedData (fun _ => empty)) ;;
       tryFinally
         (tryCatch
            (generateDummyData upstream
               (prompt s) (format s)
               {| GenerationOptions.dateFormat := dateFormat s;
                  GenerationOptions.decimalPlaces := decimalPlaces s |}
               (fun chunk =>
                  setGeneratedData (fun prevData => prevData ++ chunk)))
            (fun err =>
               consoleError None err ;;
               set (setError (Some failureMessage))))
         (set (setIsLoading false)))%async w.
End Handler.

End App.

(** ** components/DataInputForm.tsx: the values of the two selects *)

Module DataInputForm.
Definition dateFormats : list jsstring :=
  [ lit "ISO 8601"; lit "YYYY-MM-DD"; lit "MM/DD/YYYY"; lit "DD/MM/YYYY";
    lit "Unix Timestamp" ].

Definition precisions : list jsstring :=
  [ lit "0"; lit "1"; lit "2"; lit "3"; lit "4" ].

Definition decimalPlacesChoices : list jsstring :=
  lit "default" :: precisions.
End DataInputForm.

(** ** components/DataDisplay.tsx *)

Module DataDisplay.

Record Props := {
  data : jsstring;
  isLoading : bool;
  format : jsstring
}.

(** What the component returns: the spinner, the placeholder, or the
    output panel with the text of its [<code>] element and, when the
    output is truncated, the notice under it. *)
Inductive View :=
| LoadingSpinner
| Placeholder
| Output (displayData : jsstring) (notice : option jsstring).

Definition noticeText (remainingLines : Z) : jsstring :=
  lit "Displaying first 50 lines. " ++ ofZ remainingLines
    ++ lit " more line"
    ++ (if (remainingLines >? 1)%Z then lit "s" else empty)
    ++ lit " available in the full file.".

Definition render (p : Props) : View :=
  if isLoading p && negb (truthy (data p)) then LoadingSpinner
  else if negb (truthy (data p)) then Placeholder
  else
    let lines := split_lf (data p) in
    let isTruncated := Nat.ltb 50 (List.length lines) in
    let displayData :=
      if isTruncated then join_lf (slice0 50 lines) else data p in
    let remainingLines := (Z.of_nat (List.length lines) - 50)%Z in
    Output displayData
      (if isTruncated then Some (noticeText remainingLines) else None).

(** The text [handleCopy] writes to the clipboard, if it writes. *)
Definition handleCopy (p : Props) : option jsstring :=
  if negb (truthy (data p)) then None else Some (data p).

Definition handleDownload (toLowerCase : jsstring -> jsstring) (p : Props)
  : list FileUtils.DomEffect :=
  FileUtils.downloadData toLowerCase (data p) (format p).

End DataDisplay.

(** ** The vocabulary of the properties *)

Module Pipeline.
Import GeminiService.

(** The texts the chunks of a stream carry, in arrival order. *)
Definition texts (cs : list Chunk) : list jsstring :=
  flat_map (fun c => match text c with Some f => [f] | None => [] end) cs.

(** The texts among them that are not empty. *)
Definition fragments (cs : list Chunk) : list jsstring :=
  filter truthy (texts cs).

(** A callback that records the fragments it is called with. *)
Definition record (fragment : jsstring) (calls : list jsstring)
  : list jsstring :=
  calls ++ [fragment].

(** The calls of [onChunk] during one run of [generateDummyData]: the
    run is given the recording callback and starts from no call. *)
Definition onChunkCalls (upstream : Request -> Upstream)
    (userPrompt format : jsstring) (options : GenerationOptions.t)
  : list jsstring :=
  client
    (snd (generateDummyData upstream userPrompt format options record
            {| requests := []; console := []; client := [] |})).

(** The state of the caller after the callback has been called with
    each of the given fragments in turn. *)
Definition deliver (C : Type) (onChunk : jsstring -> C -> C)
    (fs : list jsstring) (c : C) : C :=
  fold_left (fun c f => onChunk f c) fs c.

(** The console entry of a failure caught by [generateDummyData]. *)
Definition apiError (e : Failure) : ConsoleEntry :=
  {| label := Some (lit "Error calling Gemini API:"); thrown := e |}.

(** The options the form can produce. *)
Definition validOptions (options : GenerationOptions.t) : Prop :=
  In (GenerationOptions.dateFormat options) DataInputForm.dateFormats
  /\ In (GenerationOptions.decimalPlaces options)
        DataInputForm.decimalPlacesChoices.

(** The guidance of each format: the items of its instruction block. *)
Definition guidance (format : jsstring) : list jsstring :=
  if eqb format DataFormat.JSON then
    [ lit "Generate valid JSON syntax.";
      lit "Support nested objects and arrays deeply if requested.";
      lit "Use specific data types (boolean, numbers, null) correctly, do not wrap everything in strings unless necessary." ]
  else if eqb format DataFormat.CSV then
    [ lit "Generate valid CSV with a header row.";
      lit "If nested data is requested, flatten it using dot notation for headers (e.g., 'address.city') or understandable conventions.";
      lit "Enclose strings containing commas in quotes." ]
  else if eqb format DataFormat.XML then
    [ lit "Generate valid XML with a single root element (e.g., <root> or <data> if not specified).";
      lit "Use semantic tags based on property names.";
      lit "Handle nested structures as nested elements." ]
  else if eqb format DataFormat.TXT then
    [ lit "Format as plain text or structured text as requested (e.g., lists, paragraphs)." ]
  else [].

(** An instruction block made of the given items. *)
Definition block (items : list jsstring) : jsstring :=
  join_lf (empty :: map (fun i => lit "      - " ++ i) items
             ++ [lit "      "]).


(** Every value [specificInstructions] can take. *)
Definition instructionBlocks : list jsstring :=
  map specificInstructions DataFormat.values ++ [empty].

Definition options (dateFormat decimalPlaces : jsstring)
  : GenerationOptions.t :=
  {| GenerationOptions.dateFormat := dateFormat;
     GenerationOptions.decimalPlaces := decimalPlaces |}.
End Pipeline.

(** ** Sample runs *)

Module Samples.
Import GeminiService App.

(** A session whose prompt is white space only, with data on display
    from an earlier generation. *)
Definition blankState : World State :=
  {| requests := []; console := [];
     client :=
       {| prompt := lit "   "; format := DataFormat.CSV;
          dateFormat := lit "ISO 8601"; decimalPlaces := lit "default";
          generatedData := lit "id,name"; isLoading := false;
          error := None |} |}.

(** A session with a prompt, with stale data on display. *)
Definition staleState : World State :=
  {| requests := []; console := [];
     client :=
       {| prompt := lit "5 users"; format := DataFormat.JSON;
          dateFormat := lit "ISO 8601"; decimalPlaces := lit "default";
          generatedData := lit "stale"; isLoading := false;
          error := None |} |}.

(** The stream of the accumulator example. *)
Definition abc : ResponseStream :=
  {| chunks := [ {| text := Some (lit "a") |};
                 {| text := Some (lit "b") |};
                 {| text := Some (lit "c") |} ];
     ending := None |}.

(** A stream that yields one text and then fails. *)
Definition broken : ResponseStream :=
  {| chunks := [ {| text := Some (lit "a") |} ];
     ending := Some QuotaFailure |}.
End Samples.

(** ** App.tsx: what the component returns *)

Module AppView.
Import App.

(** [{error && <ErrorAlert message={error} />}]: no banner for [null],
    nor for the empty string. *)
Definition errorBanner (error : option jsstring) : option jsstring :=
  match error with
  | Some message => if truthy message then Some message else None
  | None => None
  end.

(** The props [App] gives to [DataDisplay]. *)
Definition displayProps (s : State) : DataDisplay.Props :=
  {| DataDisplay.data := generatedData s;
     DataDisplay.isLoading := isLoading s;
     DataDisplay.format := format s |}.

Record View := {
  banner : option jsstring;
  panel : DataDisplay.View
}.

Definition render (s : State) : View :=
  {| banner := errorBanner (error s);
     panel := DataDisplay.render (displayProps s) |}.
End AppView.

(** ** components/DataInputForm.tsx: the controls and their events *)

Module Form.
Import GeminiService App.

Definition EXAMPLE_PROMPTS : list (jsstring * jsstring) :=
  [ (lit "User Profiles",
     lit "10 users with id, name, email, address (city, state), and role (Admin, User)");
    (lit "E-commerce",
     lit "5 products with name, price, category, stock count, and isAvailable boolean");
    (lit "Transactions",
     lit "List of 5 financial transactions with id, amount, currency, status, and timestamp");
    (lit "Sensor Data",
     lit "20 sensor readings with deviceId, temperature, humidity, and timestamp") ].

Definition setPrompt (v : jsstring) (s : State) : State :=
  {| prompt := v; format := format s; dateFormat := dateFormat s;
     decimalPlaces := decimalPlaces s;
     generatedData := generatedData s;
     isLoading := isLoading s; error := error s |}.

Definition setFormat (v : jsstring) (s : State) : State :=
  {| prompt := prompt s; format := v; dateFormat := dateFormat s;
     decimalPlaces := decimalPlaces s;
     generatedData := generatedData s;
     isLoading := isLoading s; error := error s |}.

Definition setDateFormat (v : jsstring) (s : State) : State :=
  {| prompt := prompt s; format := format s; dateFormat := v;
     decimalPlaces := decimalPlaces s;
     generatedData := generatedData s;
     isLoading := isLoading s; error := error s |}.

Definition setDecimalPlaces (v : jsstring) (s : State) : State :=
  {| prompt := prompt s; format := format s; dateFormat := dateFormat s;
     decimalPlaces := v;
     generatedData := generatedData s;
     isLoading := isLoading s; error := error s |}.

(** What the user can do with the form.  A select is changed by
    choosing one of the options it renders, given by its position; the
    button carries the behaviour of the service during the run it
    starts. *)
Inductive Event :=
| ChangePrompt (value : jsstring)
| ClickExample (index : nat)
| ChangeFormat (index : nat)
| ChangeDateFormat (index : nat)
| ChangeDecimalPlaces (index : nat)
| ClickGenerate (upstream : Request -> Upstream).

(** [onChange] of a select over the given options. *)
Definition choose (choices : list jsstring) (index : nat)
    (setter : jsstring -> State -> State) (w : World State) : World State :=
  match nth_error choices index with
  | Some value => updateClient (setter value) w
  | None => w
  end.

(** Every control is [disabled={isLoading}]. *)
Definition dispatch (w : World State) (ev : Event) : World State :=
  if isLoading (client w) then w
  else
    match ev with
    | ChangePrompt value => updateClient (setPrompt value) w
    | ClickExample index =>
        match nth_error EXAMPLE_PROMPTS index with
        | Some example => updateClient (setPrompt (snd example)) w
        | None => w
        end
    | ChangeFormat index => choose DataFormat.values index setFormat w
    | ChangeDateFormat index =>
        choose DataInputForm.dateFormats index setDateFormat w
    | ChangeDecimalPlaces index =>
        choose DataInputForm.decimalPlacesChoices index setDecimalPlaces w
    | ClickGenerate upstream => snd (handleGenerate upstream w)
    end.

Definition session (evs : list Event) (w : World State) : World State :=
  fold_left dispatch evs w.

(** The page as it loads. *)
Definition start : World State :=
  {| requests := []; console := []; client := initial |}.


End Form.

(** ** The page under [downloadData]

    The part of the document and of the URL store the effects of
    [downloadData] act on: the anchor created last, the number of
    anchors attached to the body, the object URLs that are live, and
    the files saved so far, oldest first. *)

Module Page.
Import FileUtils.

Record t := {
  anchor : option (Blob * jsstring);
  attached : nat;
  liveUrls : list Blob;
  saved : list (jsstring * Blob)
}.

Definition blobEqb (a b : Blob) : bool :=
  eqb (blobParts a) (blobParts b) && eqb (blobType a) (blobType b).

Fixpoint revoke (b : Blob) (urls : list Blob) : list Blob :=
  match urls with
  | [] => []
  | u :: urls' => if blobEqb b u then urls' else u :: revoke b urls'
  end.

(** A click on an attached anchor whose [href] is a live object URL
    saves the blob under the [download] name. *)
Definition apply (p : t) (e : DomEffect) : t :=
  match e with
  | CreateObjectURL b =>
      {| anchor := anchor p; attached := attached p;
         liveUrls := b :: liveUrls p; saved := saved p |}
  | CreateAnchor href download =>
      {| anchor := Some (href, download); attached := attached p;
         liveUrls := liveUrls p; saved := saved p |}
  | AppendChild =>
      {| anchor := anchor p; attached := S (attached p);
         liveUrls := liveUrls p; saved := saved p |}
  | Click =>
      match anchor p with
      | Some (href, download) =>
          if Nat.ltb 0 (attached p) && existsb (blobEqb href) (liveUrls p)
          then {| anchor := anchor p; attached := attached p;
                  liveUrls := liveUrls p;
                  saved := saved p ++ [(download, href)] |}
          else p
      | None => p
      end
  | RemoveChild =>
      {| anchor := anchor p; attached := pred (attached p);
         liveUrls := liveUrls p; saved := saved p |}
  | RevokeObjectURL b =>
      {| anchor := anchor p; attached := attached p;
         liveUrls := revoke b (liveUrls p); saved := saved p |}
  end.

Definition run (es : list DomEffect) (p : t) : t := fold_left apply es p.

(** One download after the other. *)
Definition downloads (toLowerCase : jsstring -> jsstring)
    (files : list (jsstring * jsstring)) (p : t) : t :=
  fold_left
    (fun p f => run (downloadData toLowerCase (fst f) (snd f)) p) files p.

(** The file [downloadData] is to save for a content and a format. *)
Definition fileOf (toLowerCase : jsstring -> jsstring)
    (f : jsstring * jsstring) : jsstring * Blob :=
  (lit "dummy-data." ++ toLowerCase (snd f),
   {| blobParts := fst f; blobType := getMimeType (snd f) |}).
End Page.

(** ** tests/unit/dataFormatter.test.ts: the [DataFormatter] class *)

Module DataFormatter.

(** The ASCII part of [String.prototype.toUpperCase]. *)
Definition upperUnit (c : N) : N :=
  if (N.leb 97 c && N.leb c 122)%N then (c - 32)%N else c.

Section WithEngine.
(** [String.prototype.toUpperCase] and the success of [JSON.parse] are
    the engine's; the model takes them as given. *)
Variable toUpperCase : jsstring -> jsstring.
Variable jsonParses : jsstring -> bool.

(** A [JSON.parse] that throws is caught and gives [false]. *)
Definition validateFormat (data format : jsstring) : bool :=
  let name := toUpperCase format in
  if eqb name (lit "JSON") then
    if jsonParses data then true else false
  else if eqb name (lit "CSV") then
    includes data [lf] || includes data (lit ",")
  else if eqb name (lit "XML") then
    includes data (lit "<?xml") || includes data (lit "<")
  else if eqb name (lit "TXT") then true
  else false.
End WithEngine.
End DataFormatter.

(** ** Decimal digits *)

Module Digits.
(** The code units of [0] to [9]. *)
Definition isDigit (c : N) : bool := (N.leb 48 c && N.leb c 57)%N.
End Digits.

(** * Properties *)

Unset Implicit Arguments.

(** ** Facts about JavaScript strings *)

Module JsFacts.

Lemma eqb_refl (a : jsstring) : eqb a a = true.
Proof.
  induction a as [|x a IH]; simpl; [reflexivity|].
  now rewrite N.eqb_refl, IH.
Qed.

Lemma eqb_eq (a b : jsstring) : eqb a b = true <-> a = b.
Proof.
  split.
  - revert b; induction a as [|x a IH]; intros [|y b] H; simpl in H;
      try discriminate; [reflexivity|].
    destruct (N.eqb x y) eqn:Hx; [|discriminate].
    apply N.eqb_eq in Hx. apply IH in H. congruence.
  - intros ->. apply eqb_refl.
Qed.

Lemma eqb_neq (a b : jsstring) : eqb a b = false <-> a <> b.
Proof.
  rewrite <- eqb_eq. destruct (eqb a b); split; congruence.
Qed.

Lemma truthy_false (s : jsstring) : truthy s = false <-> s = [].
Proof. destruct s; simpl; split; congruence. Qed.

(** *** [trim] *)

Lemma trimStart_blank (s : jsstring) : blank s = true -> trimStart s = [].
Proof.
  induction s as [|c s IH]; simpl; [reflexivity|].
  intros H. apply andb_true_iff in H as [Hc Hs].
  rewrite Hc. auto.
Qed.

Lemma trimStart_head (s : jsstring) :
  trimStart s = [] \/
  exists c r, trimStart s = c :: r /\ isWhiteSpace c = false.
Proof.
  induction s as [|c s IH]; simpl; [now left|].
  destruct (isWhiteSpace c) eqn:Hc; [exact IH|].
  right. now exists c, s.
Qed.

Lemma trimStart_nil (s : jsstring) : trimStart s = [] -> blank s = true.
Proof.
  induction s as [|c s IH]; simpl; [reflexivity|].
  destruct (isWhiteSpace c); [auto | discriminate].
Qed.

Lemma blank_rev (s : jsstring) : blank (rev s) = blank s.
Proof.
  unfold blank. induction s as [|c s IH]; simpl; [reflexivity|].
  rewrite forallb_app, IH. simpl. rewrite andb_true_r. apply andb_comm.
Qed.

Lemma trim_blank_iff (s : jsstring) : trim s = [] <-> blank s = true.
Proof.
  unfold trim, trimEnd. split.
  - intros H.
    assert (Hr : trimStart (rev (trimStart s)) = []).
    { apply (f_equal (@rev N)) in H. now rewrite rev_involutive in H. }
    apply trimStart_nil in Hr. rewrite blank_rev in Hr.
    destruct (trimStart_head s) as [Hs | (c & r & Hs & Hc)].
    + now apply trimStart_nil.
    + rewrite Hs in Hr. simpl in Hr. rewrite Hc in Hr. discriminate.
  - intros H. now rewrite (trimStart_blank s H).
Qed.

(** *** [includes] *)

Lemma startsWith_app (p b : jsstring) : startsWith (p ++ b) p = true.
Proof.
  induction p as [|y p IH]; simpl; [reflexivity|].
  now rewrite N.eqb_refl.
Qed.

Lemma includes_app_r (a s p : jsstring) :
  includes s p = true -> includes (a ++ s) p = true.
Proof.
  intros H. induction a as [|x a IH]; simpl; [exact H|].
  rewrite IH. now destruct (startsWith _ p).
Qed.

Lemma includes_startsWith (s p : jsstring) :
  startsWith s p = true -> includes s p = true.
Proof. intros H. destruct s; cbn [includes]; now rewrite H. Qed.

Lemma includes_middle (a p b : jsstring) : includes (a ++ p ++ b) p = true.
Proof.
  apply includes_app_r, includes_startsWith, startsWith_app.
Qed.

Lemma startsWith_prefix (s p q : jsstring) :
  startsWith s (p ++ q) = true -> startsWith s p = true.
Proof.
  revert s; induction p as [|y p IH]; intros s H; simpl; [reflexivity|].
  destruct s as [|x s]; simpl in H; [discriminate|].
  destruct (N.eqb x y); [eauto | discriminate].
Qed.

Lemma includes_prefix (s p q : jsstring) :
  includes s (p ++ q) = true -> includes s p = true.
Proof.
  induction s as [|x s IH]; cbn [includes]; intros H.
  - destruct (startsWith [] (p ++ q)) eqn:E; [|discriminate].
    now rewrite (startsWith_prefix _ _ _ E).
  - destruct (startsWith (x :: s) (p ++ q)) eqn:E.
    + now rewrite (startsWith_prefix _ _ _ E).
    + rewrite (IH H). now destruct (startsWith (x :: s) p).
Qed.

(** *** [split] and [join] on line feeds *)

Lemma split_lf_cons (s : jsstring) : exists l ls, split_lf s = l :: ls.
Proof.
  induction s as [|c s (l & ls & IH)]; simpl; [now exists [], []|].
  destruct (N.eqb c lf); [now exists [], (split_lf s)|].
  rewrite IH. now exists (c :: l), ls.
Qed.

Lemma split_lf_length (s : jsstring) : 1 <= List.length (split_lf s).
Proof.
  destruct (split_lf_cons s) as (l & ls & ->). simpl. lia.
Qed.

Lemma join_split (s : jsstring) : join_lf (split_lf s) = s.
Proof.
  induction s as [|c s IH]; simpl; [reflexivity|].
  destruct (N.eqb c lf) eqn:Hc.
  - apply N.eqb_eq in Hc. subst c.
    destruct (split_lf_cons s) as (l & ls & E).
    rewrite E in *. simpl. now rewrite <- IH.
  - destruct (split_lf_cons s) as (l & ls & E).
    rewrite E in *. destruct ls; simpl in *; now rewrite <- IH.
Qed.

Lemma split_oneLine (s : jsstring) : Forall oneLine (split_lf s).
Proof.
  induction s as [|c s IH]; simpl.
  - constructor; [intros [] | constructor].
  - destruct (N.eqb c lf) eqn:Hc.
    + constructor; [intros [] | exact IH].
    + destruct (split_lf_cons s) as (l & ls & E). rewrite E in *.
      inversion IH as [|? ? Hl Hls]; subst.
      constructor; [|exact Hls].
      intros [Hin | Hin]; [|now apply Hl].
      apply N.eqb_neq in Hc. congruence.
Qed.

Lemma split_line_app (l s : jsstring) :
  oneLine l ->
  split_lf (l ++ s) =
  match split_lf s with
  | [] => [l]
  | l' :: ls => (l ++ l') :: ls
  end.
Proof.
  induction l as [|c l IH]; intros Hl; simpl.
  - destruct (split_lf_cons s) as (l' & ls & E). now rewrite E.
  - assert (Hc : N.eqb c lf = false).
    { apply N.eqb_neq. intros ->. apply Hl. now left. }
    rewrite Hc, IH by (intros Hin; apply Hl; now right).
    destruct (split_lf_cons s) as (l' & ls & E). now rewrite E.
Qed.

Lemma split_join (ls : list jsstring) :
  ls <> [] -> Forall oneLine ls -> split_lf (join_lf ls) = ls.
Proof.
  induction ls as [|l ls IH]; intros Hne Hall; [congruence|].
  inversion Hall as [|? ? Hl Hls]; subst.
  destruct ls as [|l' ls].
  - simpl. rewrite <- (app_nil_r l) at 1.
    rewrite split_line_app by exact Hl. simpl. now rewrite app_nil_r.
  - change (join_lf (l :: l' :: ls)) with (l ++ lf :: join_lf (l' :: ls)).
    rewrite split_line_app by exact Hl.
    assert (E : split_lf (lf :: join_lf (l' :: ls))
                = [] :: split_lf (join_lf (l' :: ls))).
    { cbn [split_lf]. now rewrite N.eqb_refl. }
    rewrite E, IH by (congruence || exact Hls).
    now rewrite app_nil_r.
Qed.

Lemma firstn_oneLine (n : nat) (ls : list jsstring) :
  Forall oneLine ls -> Forall oneLine (firstn n ls).
Proof.
  intros H. revert n. induction H; intros [|n]; simpl; constructor; auto.
Qed.

End JsFacts.

(** ** utils/fileUtils.ts *)

Module FileUtilsFacts.
Import FileUtils.

Lemma blobEqb_refl (b : Blob) : Page.blobEqb b b = true.
Proof. unfold Page.blobEqb. now rewrite !JsFacts.eqb_refl. Qed.

(** The effects of one call on a page: the object URL is created
    before the click and revoked after it, and the anchor is attached
    for the click and removed after it. *)
Lemma run_downloadData (toLowerCase : jsstring -> jsstring)
    (content format : jsstring) (p : Page.t) :
  Page.run (downloadData toLowerCase content format) p
  = if truthy content
    then {| Page.anchor :=
              Some ({| blobParts := content; blobType := getMimeType format |},
                    lit "dummy-data." ++ toLowerCase format);
            Page.attached := Page.attached p;
            Page.liveUrls := Page.liveUrls p;
            Page.saved :=
              Page.saved p
              ++ [Page.fileOf toLowerCase (content, format)] |}
    else p.
Proof.
  unfold downloadData, getFileExtension, Page.fileOf.
  destruct content as [|c content]; cbn [truthy negb]; [reflexivity|].
  unfold Page.run.
  cbn [fold_left Page.apply Page.anchor Page.attached Page.liveUrls
       Page.saved existsb Page.revoke Nat.ltb Nat.leb pred andb fst snd].
  rewrite blobEqb_refl.
  cbn [orb Page.anchor Page.attached Page.liveUrls Page.saved Page.revoke
       pred].
  now rewrite blobEqb_refl.
Qed.

Lemma getMimeType_table (format : jsstring) :
  getMimeType format = ExportTable.mime format.
Proof.
  unfold getMimeType, ExportTable.mime, ExportTable.row, ExportTable.rows.
  cbn [find fst snd option_map].
  repeat (destruct (eqb format _); [reflexivity|]).
  reflexivity.
Qed.

Section WithToLowerCase.
Variable toLowerCase : jsstring -> jsstring.
Hypothesis toLowerCase_ascii :
  forall s, forallb isAscii s = true -> toLowerCase s = map lowerUnit s.

Lemma extension_table (format : jsstring) (r : jsstring * jsstring) :
  ExportTable.row format = Some r -> getFileExtension toLowerCase format = snd r.
Proof.
  unfold ExportTable.row, ExportTable.rows, getFileExtension.
  cbn [find fst snd].
  repeat match goal with
         | |- context [eqb format ?a] =>
             destruct (eqb format a) eqn:E;
             [ apply JsFacts.eqb_eq in E; subst format;
               intros [= <-]; rewrite toLowerCase_ascii; reflexivity
             | clear E ]
         end.
  discriminate.
Qed.

(** C8.  [downloadData] does nothing on the empty content: no effect,
    and any page is left as it was.  On any other content, run on any
    page, it saves one file more and no other: the click finds the
    anchor attached and its object URL live; the file is named
    [dummy-data.] followed by the lower-cased format, and its blob
    holds the content under the MIME type of the export table
    ([text/plain] for a format outside the table); afterwards no anchor
    stays attached and no object URL stays live.  For the four formats
    the extension is the one of the table. *)
Theorem downloadData_saves_per_table (content format : jsstring)
    (p : Page.t) :
  (content = [] ->
   downloadData toLowerCase content format = []
   /\ Page.run (downloadData toLowerCase content format) p = p)
  /\ (content <> [] ->
      Page.saved (Page.run (downloadData toLowerCase content format) p)
      = Page.saved p
        ++ [(lit "dummy-data." ++ toLowerCase format,
             {| blobParts := content;
                blobType := ExportTable.mime format |})]
      /\ Page.attached (Page.run (downloadData toLowerCase content format) p)
         = Page.attached p
      /\ Page.liveUrls (Page.run (downloadData toLowerCase content format) p)
         = Page.liveUrls p)
  /\ (forall r, ExportTable.row format = Some r ->
                ExportTable.mime format = fst r
                /\ toLowerCase format = snd r)
  /\ (ExportTable.row format = None ->
      ExportTable.mime format = lit "text/plain").
Proof.
  split; [|split; [|split]].
  - intros ->. split; reflexivity.
  - intros Hne. rewrite run_downloadData.
    destruct content as [|c content]; [congruence|].
    cbn [truthy Page.saved Page.attached Page.liveUrls].
    unfold Page.fileOf. cbn [fst snd]. rewrite getMimeType_table.
    repeat split.
  - intros r H. split.
    + unfold ExportTable.mime. now rewrite H.
    + now apply extension_table.
  - intros H. unfold ExportTable.mime. now rewrite H.
Qed.
End WithToLowerCase.

Lemma downloadData_saves_per_table_witness :
  Page.saved
    (Page.run (downloadData (map lowerUnit) (lit "[1]") DataFormat.CSV)
       {| Page.anchor := None; Page.attached := 0; Page.liveUrls := [];
          Page.saved := [] |})
  = [ (lit "dummy-data.csv",
       {| blobParts := lit "[1]"; blobType := lit "text/csv" |}) ].
Proof.
  destruct (downloadData_saves_per_table (map lowerUnit)
              (fun s _ => eq_refl) (lit "[1]") DataFormat.CSV
              {| Page.anchor := None; Page.attached := 0;
                 Page.liveUrls := []; Page.saved := [] |})
    as (_ & Hsave & Hrow & _).
  destruct Hsave as (Hsaved & _ & _); [discriminate|].
  rewrite Hsaved.
  destruct (Hrow (lit "text/csv", lit "csv") eq_refl) as [-> _].
  reflexivity.
Defined.

End FileUtilsFacts.

(** ** components/DataDisplay.tsx *)

Module DataDisplayFacts.
Import DataDisplay.

Lemma many_lines_truthy (s : jsstring) :
  50 < List.length (split_lf s) -> truthy s = true.
Proof.
  destruct s; simpl; [lia | reflexivity].
Qed.

Lemma render_long (p : Props) :
  50 < List.length (split_lf (data p)) ->
  render p =
  Output (join_lf (firstn 50 (split_lf (data p))))
    (Some (noticeText (Z.of_nat (List.length (split_lf (data p))) - 50))).
Proof.
  intros H. unfold render, slice0.
  rewrite (many_lines_truthy _ H), andb_false_r. cbn [negb].
  apply Nat.ltb_lt in H. now rewrite H.
Qed.

Lemma render_short (p : Props) :
  data p <> [] ->
  List.length (split_lf (data p)) <= 50 ->
  render p = Output (data p) None.
Proof.
  intros Hne H. unfold render.
  destruct (data p) as [|c s] eqn:E; [congruence|].
  cbn [truthy negb]. rewrite andb_false_r.
  assert (Hlt : Nat.ltb 50 (List.length (split_lf (c :: s))) = false)
    by (apply Nat.ltb_ge; exact H).
  now rewrite Hlt.
Qed.

(** *** The text of the notice *)

Lemma lit_inj (a b : string) : lit a = lit b -> a = b.
Proof.
  unfold lit. intros H.
  rewrite <- (string_of_list_ascii_of_string a).
  rewrite <- (string_of_list_ascii_of_string b). f_equal.
  revert H. generalize (list_ascii_of_string a) (list_ascii_of_string b).
  intros l. induction l as [|x l IH]; intros [|y m] H; try discriminate.
  - reflexivity.
  - cbn [map] in H. injection H as Hx Hl.
    apply (f_equal ascii_of_N) in Hx. rewrite !ascii_N_embedding in Hx.
    subst y. f_equal. now apply IH.
Qed.

Lemma ofZ_inj (a b : Z) : ofZ a = ofZ b -> a = b.
Proof.
  unfold ofZ. intros H. apply lit_inj in H.
  apply (f_equal NilEmpty.int_of_string) in H.
  rewrite !NilEmpty.isi in H. injection H as H.
  now apply DecimalZ.to_int_inj.
Qed.

Lemma uint_digits (d : Decimal.uint) :
  forallb Digits.isDigit (lit (NilEmpty.string_of_uint d)) = true.
Proof.
  induction d; cbn [NilEmpty.string_of_uint]; try reflexivity;
    unfold lit in *; cbn [list_ascii_of_string map forallb];
    rewrite IHd; reflexivity.
Qed.

Lemma ofZ_digits (z : Z) :
  (0 <= z)%Z -> forallb Digits.isDigit (ofZ z) = true.
Proof.
  intros H. unfold ofZ. destruct z as [|q|q]; [reflexivity| |lia].
  cbn [Z.to_int NilEmpty.string_of_int]. apply uint_digits.
Qed.

(** Digits followed by something else are read in one way only. *)
Lemma digits_then (d1 d2 : jsstring) (c1 c2 : N) (t1 t2 : jsstring) :
  forallb Digits.isDigit d1 = true -> forallb Digits.isDigit d2 = true ->
  Digits.isDigit c1 = false -> Digits.isDigit c2 = false ->
  d1 ++ c1 :: t1 = d2 ++ c2 :: t2 -> d1 = d2.
Proof.
  revert d2. induction d1 as [|x d1 IH]; intros [|y d2] H1 H2 Hc1 Hc2 E;
    cbn [forallb app] in *.
  - reflexivity.
  - injection E as Ex _. subst c1.
    apply andb_true_iff in H2 as [Hy _]. congruence.
  - injection E as Ex _. subst c2.
    apply andb_true_iff in H1 as [Hx _]. congruence.
  - injection E as Ex E. subst y.
    apply andb_true_iff in H1 as [_ H1].
    apply andb_true_iff in H2 as [_ H2].
    f_equal. eapply IH; eassumption.
Qed.

(** The notice tells the count: two counts with the same notice are
    the same count. *)
Lemma noticeText_inj (a b : Z) :
  (0 <= a)%Z -> (0 <= b)%Z -> noticeText a = noticeText b -> a = b.
Proof.
  intros Ha Hb E. unfold noticeText in E.
  apply app_inv_head in E.
  apply ofZ_inj.
  refine (digits_then (ofZ a) (ofZ b) 32%N 32%N _ _
            (ofZ_digits a Ha) (ofZ_digits b Hb) eq_refl eq_refl E).
Qed.

(** C9.  When the stored string has more than fifty lines, the panel
    shows its first fifty lines and nothing else; the notice under it
    is the sentence of the source with the number of lines left out
    written in decimal, and no other number gives the same notice; copy
    and download still receive the whole stored string, the download
    saving it on any page. *)
Theorem render_truncates_display_only (p : Props) :
  50 < List.length (split_lf (data p)) ->
  let lines := split_lf (data p) in
  let shown := join_lf (firstn 50 lines) in
  let hidden := Z.of_nat (List.length (skipn 50 lines)) in
  render p = Output shown (Some (noticeText hidden))
  /\ noticeText hidden
     = lit "Displaying first 50 lines. " ++ ofZ hidden ++ lit " more line"
       ++ (if (hidden >? 1)%Z then lit "s" else empty)
       ++ lit " available in the full file."
  /\ (forall n : Z,
        (0 <= n)%Z -> noticeText n = noticeText hidden -> n = hidden)
  /\ (1 <= hidden)%Z
  /\ split_lf shown = firstn 50 lines
  /\ List.length (split_lf shown) = 50
  /\ lines = split_lf shown ++ skipn 50 lines
  /\ handleCopy p = Some (data p)
  /\ forall toLowerCase page,
       Page.saved (Page.run (handleDownload toLowerCase p) page)
       = Page.saved page
         ++ [(lit "dummy-data." ++ toLowerCase (format p),
              {| FileUtils.blobParts := data p;
                 FileUtils.blobType := FileUtils.getMimeType (format p) |})].
Proof.
  intros H lines shown hidden.
  assert (Hshown : split_lf shown = firstn 50 lines).
  { apply JsFacts.split_join.
    - intros E. apply (f_equal (@List.length jsstring)) in E.
      rewrite length_firstn in E.
      change (Nat.min 50 (List.length lines) = 0) in E. subst lines. lia.
    - apply JsFacts.firstn_oneLine, JsFacts.split_oneLine. }
  assert (Hhidden : (1 <= hidden)%Z).
  { subst hidden. rewrite length_skipn. subst lines. lia. }
  split; [|split; [|split; [|split; [|split; [|split; [|split; [|split]]]]]]].
  - rewrite (render_long p H). fold lines shown.
    subst hidden. rewrite length_skipn, Nat2Z.inj_sub by (subst lines; lia).
    reflexivity.
  - reflexivity.
  - intros n Hn E. apply noticeText_inj; [exact Hn | lia | exact E].
  - exact Hhidden.
  - exact Hshown.
  - rewrite Hshown, length_firstn. subst lines. lia.
  - rewrite Hshown. symmetry. apply firstn_skipn.
  - unfold handleCopy. now rewrite (many_lines_truthy _ H).
  - intros toLowerCase page. unfold handleDownload.
    rewrite FileUtilsFacts.run_downloadData, (many_lines_truthy _ H).
    reflexivity.
Qed.

Lemma render_truncates_display_only_witness :
  render {| data := repeat lf 52; isLoading := false;
            format := DataFormat.TXT |}
  = Output (repeat lf 49)
      (Some (lit "Displaying first 50 lines. 3 more lines available in the full file.")).
Proof.
  refine (eq_trans
            (proj1 (render_truncates_display_only
                      {| data := repeat lf 52; isLoading := false;
                         format := DataFormat.TXT |} _)) _).
  - vm_compute. lia.
  - reflexivity.
Defined.

End DataDisplayFacts.

(** ** services/geminiService.ts: the prompt compiler *)

Module PromptFacts.
Import GeminiService Pipeline.

Lemma includes_cons (c : N) (s p : jsstring) :
  includes s p = true -> includes (c :: s) p = true.
Proof. apply (JsFacts.includes_app_r [c]). Qed.

Lemma startsWith_app_l (s b p : jsstring) :
  startsWith s p = true -> startsWith (s ++ b) p = true.
Proof.
  revert s; induction p as [|y p IH]; intros s H; simpl; [reflexivity|].
  destruct s as [|x s]; simpl in *; [discriminate|].
  destruct (N.eqb x y); [auto | discriminate].
Qed.

Lemma includes_app_l (s b p : jsstring) :
  includes s p = true -> includes (s ++ b) p = true.
Proof.
  induction s as [|x s IH]; intros H.
  - cbn [includes] in H.
    destruct (startsWith [] p) eqn:E; [|discriminate].
    apply JsFacts.includes_startsWith.
    now apply (startsWith_app_l [] b).
  - cbn [includes] in H. destruct (startsWith (x :: s) p) eqn:E.
    + apply JsFacts.includes_startsWith.
      now apply (startsWith_app_l (x :: s) b).
    + change ((x :: s) ++ b) with (x :: (s ++ b)).
      apply includes_cons. auto.
Qed.

Lemma known_format_cases (format : jsstring) :
  In format DataFormat.values \/
  (eqb format DataFormat.JSON = false /\ eqb format DataFormat.CSV = false
   /\ eqb format DataFormat.XML = false /\ eqb format DataFormat.TXT = false).
Proof.
  unfold DataFormat.values.
  destruct (eqb format DataFormat.JSON) eqn:E1;
    [apply JsFacts.eqb_eq in E1; subst; simpl; tauto|].
  destruct (eqb format DataFormat.CSV) eqn:E2;
    [apply JsFacts.eqb_eq in E2; subst; simpl; tauto|].
  destruct (eqb format DataFormat.XML) eqn:E3;
    [apply JsFacts.eqb_eq in E3; subst; simpl; tauto|].
  destruct (eqb format DataFormat.TXT) eqn:E4;
    [apply JsFacts.eqb_eq in E4; subst; simpl; tauto|].
  right. tauto.
Qed.

Lemma specificInstructions_unknown (format : jsstring) :
  ~ In format DataFormat.values ->
  specificInstructions format = empty /\ guidance format = [].
Proof.
  intros Hn.
  destruct (known_format_cases format) as [H | (E1 & E2 & E3 & E4)];
    [contradiction|].
  unfold specificInstructions, guidance. now rewrite E1, E2, E3, E4.
Qed.

Lemma specificInstructions_known (format : jsstring) :
  In format DataFormat.values ->
  specificInstructions format = block (guidance format)
  /\ guidance format <> [].
Proof.
  intros H.
  repeat (destruct H as [<- | H]; [split; [reflexivity | discriminate]|]).
  destruct H.
Qed.

Lemma specificInstructions_cases (format : jsstring) :
  In (specificInstructions format) instructionBlocks.
Proof.
  destruct (known_format_cases format) as [H | (E1 & E2 & E3 & E4)].
  - unfold instructionBlocks. apply in_or_app. left. now apply in_map.
  - unfold instructionBlocks. apply in_or_app. right.
    unfold specificInstructions. rewrite E1, E2, E3, E4. now left.
Qed.

(** The prompts the form can lead to are finitely many; the next four
    lemmas check them all by evaluation. *)

Lemma forallb_In (A : Type) (f : A -> bool) (l : list A) (x : A) :
  forallb f l = true -> In x l -> f x = true.
Proof. intros H. now apply forallb_forall. Qed.

Lemma checkGuidance :
  forallb (fun f =>
    forallb (fun df =>
      forallb (fun dp =>
        let s := compileSystemInstruction f (options df dp) in
        forallb (fun g =>
          forallb (fun item => Bool.eqb (includes s item) (eqb g f))
            (guidance g))
          DataFormat.values)
        DataInputForm.decimalPlacesChoices)
      DataInputForm.dateFormats)
    DataFormat.values = true.
Proof. vm_compute. reflexivity. Qed.



Lemma checkNoGuidance :
  forallb (fun df =>
    forallb (fun dp =>
      let s := assemble (formattingRules (options df dp)) empty in
      forallb (fun g =>
        forallb (fun item => negb (includes s item)) (guidance g))
        DataFormat.values)
      DataInputForm.decimalPlacesChoices)
    DataInputForm.dateFormats = true.
Proof. vm_compute. reflexivity. Qed.

Lemma precision_of_valid (o : GenerationOptions.t) :
  validOptions o ->
  GenerationOptions.decimalPlaces o <> lit "default" ->
  In (GenerationOptions.decimalPlaces o) DataInputForm.precisions.
Proof.
  intros [_ [H | H]] Hn; [congruence | exact H].
Qed.


(** What the four checks say, one instance at a time. *)

Lemma guidance_instance (f df dp g item : jsstring) :
  In f DataFormat.values ->
  In df DataInputForm.dateFormats ->
  In dp DataInputForm.decimalPlacesChoices ->
  In g DataFormat.values ->
  In item (guidance g) ->
  includes (compileSystemInstruction f (options df dp)) item = eqb g f.
Proof.
  intros Hf Hdf Hdp Hg Hitem. apply Bool.eqb_prop.
  pose proof (forallb_In _ _ _ f checkGuidance Hf) as H.
  pose proof (forallb_In _ _ _ df H Hdf) as H1.
  pose proof (forallb_In _ _ _ dp H1 Hdp) as H2.
  pose proof (forallb_In _ _ _ g H2 Hg) as H3.
  exact (forallb_In _ _ _ item H3 Hitem).
Qed.



Lemma no_guidance_instance (df dp g item : jsstring) :
  In df DataInputForm.dateFormats ->
  In dp DataInputForm.decimalPlacesChoices ->
  In g DataFormat.values ->
  In item (guidance g) ->
  includes (assemble (formattingRules (options df dp)) empty) item = false.
Proof.
  intros Hdf Hdp Hg Hitem. apply negb_true_iff.
  pose proof (forallb_In _ _ _ df checkNoGuidance Hdf) as H.
  pose proof (forallb_In _ _ _ dp H Hdp) as H1.
  pose proof (forallb_In _ _ _ g H1 Hg) as H2.
  exact (forallb_In _ _ _ item H2 Hitem).
Qed.

Lemma eqb_true_iff (a b : jsstring) (x : bool) :
  x = eqb a b -> (x = true <-> a = b).
Proof. intros ->. apply JsFacts.eqb_eq. Qed.

(** C7.  For each of the four formats and the options of the form, the
    instruction block of the format is made of its guidance, and an
    item of guidance of any of the four formats is in the compiled
    instruction exactly when it belongs to the format asked for. *)
Theorem guidance_of_the_format_only (f g item : jsstring)
    (o : GenerationOptions.t) :
  In f DataFormat.values ->
  In g DataFormat.values ->
  validOptions o ->
  In item (guidance g) ->
  specificInstructions f = block (guidance f)
  /\ guidance f <> []
  /\ (includes (compileSystemInstruction f o) item = true <-> g = f).
Proof.
  intros Hf Hg [Hdf Hdp] Hitem.
  destruct (specificInstructions_known f Hf) as [Hblock Hne].
  split; [exact Hblock|]. split; [exact Hne|].
  destruct o as [df dp].
  apply eqb_true_iff.
  exact (guidance_instance f df dp g item Hf Hdf Hdp Hg Hitem).
Qed.

Lemma guidance_of_the_format_only_witness :
  includes
    (compileSystemInstruction DataFormat.XML
       (options (lit "YYYY-MM-DD") (lit "3")))
    (lit "Generate valid CSV with a header row.") = true
  <-> DataFormat.CSV = DataFormat.XML.
Proof.
  apply (guidance_of_the_format_only DataFormat.XML DataFormat.CSV
           (lit "Generate valid CSV with a header row.")
           (options (lit "YYYY-MM-DD") (lit "3"))).
  - right; right; left; reflexivity.
  - right; left; reflexivity.
  - split; [right; left; reflexivity | do 4 right; left; reflexivity].
  - left; reflexivity.
Defined.



(** C2, as the code has it.  The compiler is a function of its three
    inputs, defined on all of them; a format outside the four known
    ones gets an empty instruction block, so that, with the options of
    the form, the compiled instruction holds no guidance of any format,
    the plain-text one included. *)
Theorem unknown_format_compiles_without_guidance
    (userPrompt format : jsstring) (o : GenerationOptions.t) :
  ~ In format DataFormat.values ->
  specificInstructions format = empty
  /\ systemInstruction (buildRequest userPrompt format o)
     = assemble (formattingRules o) empty
  /\ (validOptions o ->
      forall g item,
        In g DataFormat.values -> In item (guidance g) ->
        includes (systemInstruction (buildRequest userPrompt format o)) item
        = false).
Proof.
  intros Hn. destruct (specificInstructions_unknown format Hn) as [He _].
  cbn [buildRequest systemInstruction]. unfold compileSystemInstruction.
  rewrite He. split; [reflexivity|]. split; [reflexivity|].
  intros [Hdf Hdp] g item Hg Hitem. destruct o as [df dp].
  exact (no_guidance_instance df dp g item Hdf Hdp Hg Hitem).
Qed.

Lemma not_a_known_format : ~ In (lit "YAML") DataFormat.values.
Proof.
  intros [H | [H | [H | [H | []]]]]; discriminate H.
Qed.

Lemma unknown_format_compiles_without_guidance_witness :
  specificInstructions (lit "YAML") = empty.
Proof.
  exact (proj1 (unknown_format_compiles_without_guidance
                  (lit "5 users") (lit "YAML")
                  (options (lit "ISO 8601") (lit "default"))
                  not_a_known_format)).
Defined.

(** C2, as the claim has it, fails: for the format ["YAML"], which is
    none of the four, the instruction block is empty; it is not the
    plain-text block, and no item of plain-text guidance is in the
    compiled instruction. *)
Lemma unknown_format_has_no_fallback :
  ~ In (lit "YAML") DataFormat.values
  /\ specificInstructions (lit "YAML") = empty
  /\ specificInstructions (lit "YAML")
     <> specificInstructions DataFormat.TXT
  /\ existsb
       (includes
          (compileSystemInstruction (lit "YAML")
             (options (lit "ISO 8601") (lit "default"))))
       (guidance DataFormat.TXT) = false.
Proof.
  split; [exact not_a_known_format|].
  split; [reflexivity|].
  split; [discriminate|].
  vm_compute. reflexivity.
Qed.

End PromptFacts.

(** ** services/geminiService.ts: the streaming client *)

Module StreamFacts.
Import GeminiService Pipeline.

Lemma fragments_cons (c : Chunk) (cs : list Chunk) :
  fragments (c :: cs) =
  match text c with
  | Some f => if truthy f then [f] else []
  | None => []
  end ++ fragments cs.
Proof.
  unfold fragments, texts. cbn [flat_map]. rewrite filter_app.
  destruct (text c) as [f|]; [|reflexivity].
  cbn [filter]. now destruct (truthy f).
Qed.

Lemma concat_fragments (cs : list Chunk) :
  concat (fragments cs) = concat (texts cs).
Proof.
  unfold fragments. induction (texts cs) as [|f fs IH]; [reflexivity|].
  cbn [filter]. destruct f as [|x f]; cbn [truthy concat app].
  - exact IH.
  - now rewrite IH.
Qed.

Lemma fragments_all_truthy (cs : list Chunk) :
  forallb truthy (texts cs) = true -> fragments cs = texts cs.
Proof.
  unfold fragments. induction (texts cs) as [|f fs IH]; [reflexivity|].
  cbn [forallb filter]. intros H. apply andb_true_iff in H as [Hf Hfs].
  rewrite Hf. now rewrite IH.
Qed.

Section WithClient.
Variable C : Type.
Variable onChunk : jsstring -> C -> C.

Lemma deliver_app (fs gs : list jsstring) (c : C) :
  deliver onChunk (fs ++ gs) c = deliver onChunk gs (deliver onChunk fs c).
Proof. apply fold_left_app. Qed.

Lemma updateClient_updateClient (f g : C -> C) (w : World C) :
  updateClient g (updateClient f w) = updateClient (fun c => g (f c)) w.
Proof. reflexivity. Qed.

Lemma updateClient_id (w : World C) : updateClient (fun c => c) w = w.
Proof. now destruct w. Qed.

(** The loop over the chunks: it never throws, and it calls the
    callback with the fragments, in order. *)
Lemma forEach_chunks (cs : list Chunk) (w : World C) :
  forEach cs
    (fun chunk : Chunk =>
       match text chunk with
       | Some fragment =>
           if truthy fragment
           then modify (E := Failure) (updateClient (onChunk fragment))
           else ret tt
       | None => ret tt
       end) w
  = (Fulfilled tt, updateClient (deliver onChunk (fragments cs)) w).
Proof.
  revert w. induction cs as [|c cs IH]; intros w.
  - cbn [forEach]. unfold ret. now rewrite <- (updateClient_id w) at 1.
  - cbn [forEach]. unfold bind. rewrite fragments_cons.
    destruct (text c) as [f|].
    + destruct (truthy f).
      * unfold modify. rewrite IH, updateClient_updateClient.
        reflexivity.
      * unfold ret. now rewrite IH.
    + unfold ret. now rewrite IH.
Qed.

Variable upstream : Request -> Upstream.

(** One run of [generateDummyData], whatever the service does. *)
Lemma generateDummyData_run (userPrompt format : jsstring)
    (options : GenerationOptions.t) (w : World C) :
  generateDummyData upstream userPrompt format options onChunk w =
  (Fulfilled tt,
   let w1 := sendRequest (buildRequest userPrompt format options) w in
   match upstream (buildRequest userPrompt format options) with
   | Refused e => logError (apiError e) w1
   | Opened s =>
       let w2 := updateClient (deliver onChunk (fragments (chunks s))) w1 in
       match ending s with
       | None => w2
       | Some e => logError (apiError e) w2
       end
   end).
Proof.
  unfold generateDummyData, tryCatch, bind, generateContentStream.
  destruct (upstream (buildRequest userPrompt format options)) as [e|s].
  - reflexivity.
  - unfold forAwait, bind. rewrite forEach_chunks.
    destruct (ending s) as [e|]; reflexivity.
Qed.

(** The promise of [generateDummyData] is never rejected. *)
Lemma generateDummyData_fulfilled (userPrompt format : jsstring)
    (options : GenerationOptions.t) (w : World C) :
  fst (generateDummyData upstream userPrompt format options onChunk w)
  = Fulfilled tt.
Proof. now rewrite generateDummyData_run. Qed.

(** A call of [generateDummyData] sends one request, no more. *)
Lemma generateDummyData_requests (userPrompt format : jsstring)
    (options : GenerationOptions.t) (w : World C) :
  requests
    (snd (generateDummyData upstream userPrompt format options onChunk w))
  = requests w ++ [buildRequest userPrompt format options].
Proof.
  rewrite generateDummyData_run. cbn [snd].
  destruct (upstream _) as [e|s]; [reflexivity|].
  destruct (ending s); reflexivity.
Qed.

Lemma generateDummyData_client (userPrompt format : jsstring)
    (options : GenerationOptions.t) (w : World C) :
  client
    (snd (generateDummyData upstream userPrompt format options onChunk w))
  = match upstream (buildRequest userPrompt format options) with
    | Refused _ => client w
    | Opened s => deliver onChunk (fragments (chunks s)) (client w)
    end.
Proof.
  rewrite generateDummyData_run. cbn [snd].
  destruct (upstream _) as [e|s]; [reflexivity|].
  destruct (ending s); reflexivity.
Qed.
End WithClient.

Lemma deliver_record (fs calls : list jsstring) :
  deliver record fs calls = calls ++ fs.
Proof.
  revert calls. induction fs as [|f fs IH]; intros calls.
  - now rewrite app_nil_r.
  - unfold deliver in *. cbn [fold_left]. rewrite IH.
    unfold record. now rewrite <- app_assoc.
Qed.

(** C3, as the code has it.  During a run of [generateDummyData] the
    callback is called with the non-empty texts of the stream, each
    once, in arrival order, one text per call, and with nothing else:
    not at all when the request is refused.  This holds of the calls
    recorded and of the state any callback leaves behind; when no text
    of the stream is empty, the calls are the texts of the stream. *)
Theorem onChunk_called_per_nonempty_fragment
    (upstream : Request -> Upstream) (userPrompt format : jsstring)
    (o : GenerationOptions.t) :
  onChunkCalls upstream userPrompt format o
  = match upstream (buildRequest userPrompt format o) with
    | Refused _ => []
    | Opened s => filter truthy (texts (chunks s))
    end
  /\ (forall (C : Type) (onChunk : jsstring -> C -> C) (w : World C),
      client (snd (generateDummyData upstream userPrompt format o onChunk w))
      = match upstream (buildRequest userPrompt format o) with
        | Refused _ => client w
        | Opened s =>
            fold_left (fun c f => onChunk f c)
              (filter truthy (texts (chunks s))) (client w)
        end)
  /\ (forall s,
      upstream (buildRequest userPrompt format o) = Opened s ->
      forallb truthy (texts (chunks s)) = true ->
      onChunkCalls upstream userPrompt format o = texts (chunks s)).
Proof.
  assert (Hcalls :
    onChunkCalls upstream userPrompt format o
    = match upstream (buildRequest userPrompt format o) with
      | Refused _ => []
      | Opened s => filter truthy (texts (chunks s))
      end).
  { unfold onChunkCalls. rewrite generateDummyData_client.
    destruct (upstream _) as [e|s]; [reflexivity|].
    cbn [client]. now rewrite deliver_record. }
  split; [exact Hcalls|]. split.
  - intros C onChunk w. now rewrite generateDummyData_client.
  - intros s Hs Hall. rewrite Hcalls, Hs.
    now apply fragments_all_truthy.
Qed.

(** C3, as the claim has it, fails: a chunk whose text is the empty
    string is a text received from the stream, and the callback is not
    called with it. *)
Lemma empty_fragment_is_not_delivered :
  let s := {| chunks := [ {| text := Some (lit "a") |};
                          {| text := Some empty |} ];
              ending := None |} in
  let calls :=
    onChunkCalls (fun _ => Opened s) (lit "5 users") DataFormat.JSON
      (options (lit "ISO 8601") (lit "default")) in
  texts (chunks s) = [lit "a"; empty]
  /\ calls = [lit "a"]
  /\ calls <> texts (chunks s).
Proof.
  split; [reflexivity|]. split; [reflexivity|]. discriminate.
Qed.

End StreamFacts.

(** ** App.tsx *)

Module AppFacts.
Import GeminiService Pipeline App Samples.

Lemma truthy_trim (p : jsstring) : truthy (trim p) = negb (blank p).
Proof.
  destruct (blank p) eqn:E.
  - apply JsFacts.trim_blank_iff in E. now rewrite E.
  - destruct (trim p) eqn:T; [|reflexivity].
    apply JsFacts.trim_blank_iff in T. congruence.
Qed.

(** The callback [handleGenerate] passes to the service. *)
Lemma deliver_append (fs : list jsstring) (s : State) :
  deliver (fun chunk => setGeneratedData (fun prevData => prevData ++ chunk))
    fs s
  = setGeneratedData (fun prevData => prevData ++ concat fs) s.
Proof.
  revert s. induction fs as [|f fs IH]; intros s.
  - destruct s. unfold deliver, setGeneratedData.
    cbn [fold_left concat generatedData prompt format dateFormat
         decimalPlaces isLoading error].
    now rewrite app_nil_r.
  - unfold deliver in *. cbn [fold_left]. rewrite IH.
    unfold setGeneratedData.
    cbn [concat generatedData prompt format dateFormat decimalPlaces
         isLoading error].
    now rewrite <- app_assoc.
Qed.

Section Handler.
Variable upstream : Request -> Upstream.

(** A run on a blank prompt: the first branch of the handler. *)
Lemma handleGenerate_blank (w : World State) :
  blank (prompt (client w)) = true ->
  handleGenerate upstream w
  = (Fulfilled tt, updateClient (setError (Some validationMessage)) w).
Proof.
  intros H. unfold handleGenerate.
  now rewrite truthy_trim, H.
Qed.

(** A run on any other prompt: the state is reset, the service is
    called once, and the loading flag is cleared at the end. *)
Lemma handleGenerate_run (w : World State) :
  blank (prompt (client w)) = false ->
  handleGenerate upstream w
  = (Fulfilled tt,
     updateClient (setIsLoading false)
       (snd (generateDummyData upstream
               (prompt (client w)) (format (client w))
               (options (dateFormat (client w))
                  (decimalPlaces (client w)))
               (fun chunk =>
                  setGeneratedData (fun prevData => prevData ++ chunk))
               (updateClient
                  (fun s =>
                     setGeneratedData (fun _ => empty)
                       (setError None (setIsLoading true s)))
                  w)))).
Proof.
  intros H. unfold handleGenerate. rewrite truthy_trim, H. cbn [negb].
  unfold bind, set, modify, tryFinally, tryCatch, options.
  rewrite !StreamFacts.updateClient_updateClient.
  match goal with
  | |- context [generateDummyData ?u ?p ?f ?o ?cb ?w0] =>
      pose proof (StreamFacts.generateDummyData_fulfilled _ cb u p f o w0)
        as Hf;
      destruct (generateDummyData u p f o cb w0) as [r w1]
  end.
  cbn [fst] in Hf. subst r. reflexivity.
Qed.

(** C4.  A call of [generateDummyData] always shows in the request
    log; a submission whose prompt is empty or white space only
    leaves the log as it was, so the service is not called and no
    request is sent; the error is set to the validation message, which
    is not empty, and the page shows it in its error banner, with the
    text of the source. *)
Theorem blank_prompt_sends_nothing (w : World State) :
  blank (prompt (client w)) = true ->
  (forall (C : Type) (onChunk : jsstring -> C -> C) u f o (w0 : World C),
     requests (snd (generateDummyData upstream u f o onChunk w0))
     = requests w0 ++ [buildRequest u f o])
  /\ fst (handleGenerate upstream w) = Fulfilled tt
  /\ requests (snd (handleGenerate upstream w)) = requests w
  /\ error (client (snd (handleGenerate upstream w)))
     = Some validationMessage
  /\ validationMessage <> empty
  /\ AppView.banner (AppView.render (client (snd (handleGenerate upstream w))))
     = Some
         (lit "Please enter a description for the data you want to generate.").
Proof.
  intros H. split.
  - intros C onChunk u f o w0.
    apply StreamFacts.generateDummyData_requests.
  - rewrite (handleGenerate_blank w H).
    split; [reflexivity|]. split; [reflexivity|]. split; [reflexivity|].
    split; [discriminate|].
    destruct w as [rq cs [p f df dp g l e]]. reflexivity.
Qed.

(** C10.  On a blank prompt the handler returns after setting the
    error and nothing else: the generated data, the loading flag,
    the form fields, the request log and the console are as
    before. *)
Theorem blank_prompt_changes_error_only (w : World State) :
  blank (prompt (client w)) = true ->
  let w' := snd (handleGenerate upstream w) in
  w' = updateClient (setError (Some validationMessage)) w
  /\ generatedData (client w') = generatedData (client w)
  /\ isLoading (client w') = isLoading (client w)
  /\ prompt (client w') = prompt (client w)
  /\ format (client w') = format (client w)
  /\ dateFormat (client w') = dateFormat (client w)
  /\ decimalPlaces (client w') = decimalPlaces (client w)
  /\ requests w' = requests w
  /\ console w' = console w
  /\ error (client w') = Some validationMessage.
Proof.
  intros H w'. subst w'. rewrite (handleGenerate_blank w H).
  repeat split.
Qed.

(** C5.  On any other prompt the data stored at the end of the run is
    the concatenation, in arrival order, of the texts the stream has
    yielded, whatever was stored before the run: the empty string
    when the request is refused. *)
Theorem generated_data_is_concatenation (w : World State) :
  blank (prompt (client w)) = false ->
  generatedData (client (snd (handleGenerate upstream w)))
  = match
      upstream
        (buildRequest (prompt (client w)) (format (client w))
           (options (dateFormat (client w)) (decimalPlaces (client w))))
    with
    | Refused _ => empty
    | Opened s => concat (texts (chunks s))
    end.
Proof.
  intros H. rewrite (handleGenerate_run w H). cbn [snd].
  unfold updateClient at 1. cbn [client].
  rewrite StreamFacts.generateDummyData_client.
  destruct (upstream _) as [e|s]; [reflexivity|].
  rewrite deliver_append, StreamFacts.concat_fragments. reflexivity.
Qed.
End Handler.

Lemma blank_prompt_sends_nothing_witness :
  requests
    (snd (handleGenerate (fun _ => Refused NetworkFailure) blankState))
  = [].
Proof.
  exact (proj1 (proj2 (proj2
           (blank_prompt_sends_nothing (fun _ => Refused NetworkFailure)
              blankState eq_refl)))).
Defined.

Lemma blank_prompt_changes_error_only_witness :
  generatedData
    (client
       (snd (handleGenerate (fun _ => Refused NetworkFailure) blankState)))
  = lit "id,name".
Proof.
  exact (proj1 (proj2
           (blank_prompt_changes_error_only
              (fun _ => Refused NetworkFailure) blankState eq_refl))).
Defined.

Lemma generated_data_is_concatenation_witness :
  generatedData
    (client (snd (handleGenerate (fun _ => Opened abc) staleState)))
  = lit "abc".
Proof.
  exact (generated_data_is_concatenation (fun _ => Opened abc) staleState
           eq_refl).
Defined.

(** C1: the failure the claim is about.  The request is refused; the
    promise of [generateDummyData] is fulfilled all the same, so the
    [catch] of [handleGenerate] does not run: no error is shown, and
    the failure is on the console only.  One request was sent.  The
    same happens when the stream fails after its first text, which stays
    in the generated data. *)
Theorem refused_request_shows_no_error :
  let run := handleGenerate (fun _ => Refused NetworkFailure) staleState in
  fst (generateDummyData (fun _ => Refused NetworkFailure)
         (lit "5 users") DataFormat.JSON
         (options (lit "ISO 8601") (lit "default"))
         (fun chunk => setGeneratedData (fun prevData => prevData ++ chunk))
         staleState)
  = Fulfilled tt
  /\ fst run = Fulfilled tt
  /\ error (client (snd run)) = None
  /\ isLoading (client (snd run)) = false
  /\ console (snd run) = [apiError NetworkFailure]
  /\ List.length (requests (snd run)) = 1
  /\ (let run' := handleGenerate (fun _ => Opened broken) staleState in
      fst run' = Fulfilled tt
      /\ error (client (snd run')) = None
      /\ generatedData (client (snd run')) = lit "a"
      /\ console (snd run') = [apiError QuotaFailure]
      /\ List.length (requests (snd run')) = 1).
Proof.
  repeat split.
Qed.

End AppFacts.

(** * Further properties *)

(** ** components/DataDisplay.tsx: the three views *)

Module DataDisplayMore.
Import DataDisplay.

Lemma join_lf_app (ls1 ls2 : list jsstring) :
  ls1 <> [] -> ls2 <> [] ->
  join_lf (ls1 ++ ls2) = join_lf ls1 ++ lf :: join_lf ls2.
Proof.
  intros H1 H2. induction ls1 as [|l ls1 IH]; [congruence|].
  destruct ls1 as [|l' ls1].
  - destruct ls2 as [|m ls2]; [congruence|]. reflexivity.
  - change (join_lf ((l :: l' :: ls1) ++ ls2))
      with (l ++ lf :: join_lf ((l' :: ls1) ++ ls2)).
    rewrite IH by congruence.
    change (join_lf (l :: l' :: ls1)) with (l ++ lf :: join_lf (l' :: ls1)).
    now rewrite <- app_assoc.
Qed.

(** The spinner is shown only while loading with nothing to show, the
    placeholder only when idle with nothing to show; as soon as there is
    data the output panel is shown, loading or not. *)
Theorem render_states (p : Props) :
  (render p = LoadingSpinner <-> isLoading p = true /\ data p = [])
  /\ (render p = Placeholder <-> isLoading p = false /\ data p = [])
  /\ (data p <> [] -> exists shown notice, render p = Output shown notice).
Proof.
  destruct p as [d l f]. unfold render. cbn [data isLoading].
  destruct d as [|c d]; destruct l; cbn [truthy negb andb];
    repeat split;
    solve [ intros; intuition discriminate
          | intros; intuition congruence
          | intros; eauto ].
Qed.

(** The text in the panel is a prefix of the stored data.  With at most
    fifty lines it is the data itself and there is no notice; with more,
    what is left out starts at the line feed that ends line fifty, and
    the notice is the sentence of the source with the number of lines
    left out, at least one, written in decimal: no other number gives
    the same notice. *)
Theorem display_is_prefix (p : Props) :
  data p <> [] ->
  exists shown notice rest,
    render p = Output shown notice
    /\ data p = shown ++ rest
    /\ (List.length (split_lf (data p)) <= 50 ->
        rest = [] /\ notice = None)
    /\ (50 < List.length (split_lf (data p)) ->
        rest = lf :: join_lf (skipn 50 (split_lf (data p)))
        /\ notice
           = Some (noticeText
                     (Z.of_nat (List.length (skipn 50 (split_lf (data p))))))
        /\ 1 <= List.length (skipn 50 (split_lf (data p)))
        /\ notice
           = Some
               (lit "Displaying first 50 lines. "
                ++ ofZ (Z.of_nat (List.length (skipn 50 (split_lf (data p)))))
                ++ lit " more line"
                ++ (if (Z.of_nat (List.length (skipn 50 (split_lf (data p))))
                        >? 1)%Z
                    then lit "s" else empty)
                ++ lit " available in the full file.")
        /\ (forall n : Z,
              (0 <= n)%Z -> notice = Some (noticeText n) ->
              n = Z.of_nat (List.length (skipn 50 (split_lf (data p)))))).
Proof.
  intros Hne.
  destruct (Nat.le_gt_cases (List.length (split_lf (data p))) 50) as [H | H].
  - exists (data p), None, [].
    rewrite (DataDisplayFacts.render_short p Hne H), app_nil_r.
    repeat split; intros; lia.
  - assert (Hr :
      render p
      = Output (join_lf (firstn 50 (split_lf (data p))))
          (Some (noticeText
                   (Z.of_nat (List.length (skipn 50 (split_lf (data p)))))))).
    { rewrite (DataDisplayFacts.render_long p H).
      now rewrite length_skipn, Nat2Z.inj_sub by lia. }
    exists (join_lf (firstn 50 (split_lf (data p)))),
      (Some (noticeText
               (Z.of_nat (List.length (skipn 50 (split_lf (data p))))))),
      (lf :: join_lf (skipn 50 (split_lf (data p)))).
    assert (Hk : 1 <= List.length (skipn 50 (split_lf (data p))))
      by (rewrite length_skipn; lia).
    split; [exact Hr|]. split; [|split; [intros; lia|]].
    2:{ intros _. split; [reflexivity|]. split; [reflexivity|].
        split; [exact Hk|]. split; [reflexivity|].
        intros n Hn E.
        apply DataDisplayFacts.noticeText_inj; [exact Hn | lia | congruence]. }
    rewrite <- join_lf_app.
    + now rewrite firstn_skipn, JsFacts.join_split.
    + intros E. apply (f_equal (@List.length jsstring)) in E.
      rewrite length_firstn in E.
      change (Nat.min 50 (List.length (split_lf (data p))) = 0) in E. lia.
    + intros E. rewrite E in Hk. cbn in Hk. lia.
Qed.

Lemma display_is_prefix_witness :
  exists shown notice rest,
    render {| data := lit "[]"; isLoading := true; format := DataFormat.JSON |}
    = Output shown notice
    /\ lit "[]" = shown ++ rest.
Proof.
  destruct (display_is_prefix
              {| data := lit "[]"; isLoading := true;
                 format := DataFormat.JSON |})
    as (shown & notice & rest & Hr & Hd & _).
  - discriminate.
  - exists shown, notice, rest. split; [exact Hr | exact Hd].
Defined.

End DataDisplayMore.

(** ** services/geminiService.ts: what a run leaves on the console *)

Module StreamMore.
Import GeminiService Pipeline.


End StreamMore.

(** ** App.tsx: a run of [handleGenerate] *)

Module HandlerMore.
Import GeminiService Pipeline App Samples.

Lemma handleGenerate_client (upstream : Request -> Upstream)
    (w : World State) :
  blank (prompt (client w)) = false ->
  client (snd (handleGenerate upstream w))
  = {| prompt := prompt (client w);
       format := format (client w);
       dateFormat := dateFormat (client w);
       decimalPlaces := decimalPlaces (client w);
       generatedData :=
         match
           upstream
             (buildRequest (prompt (client w)) (format (client w))
                (options (dateFormat (client w)) (decimalPlaces (client w))))
         with
         | Refused _ => empty
         | Opened s => concat (texts (chunks s))
         end;
       isLoading := false;
       error := None |}.
Proof.
  intros H. rewrite (AppFacts.handleGenerate_run upstream w H). cbn [snd].
  unfold updateClient at 1. cbn [client].
  rewrite StreamFacts.generateDummyData_client.
  destruct (upstream _) as [e|s].
  - reflexivity.
  - rewrite AppFacts.deliver_append, StreamFacts.concat_fragments.
    reflexivity.
Qed.

(** A submission with a prompt that is not blank: the handler sends one
    request, built from the prompt as typed (it is trimmed for the test
    only), the format and the two options of the state; at the end the
    loading flag is down and an earlier error is gone, the form fields
    are as before, and the data is what the stream has yielded. *)
Theorem generation_run (upstream : Request -> Upstream) (w : World State) :
  blank (prompt (client w)) = false ->
  let request :=
    buildRequest (prompt (client w)) (format (client w))
      (options (dateFormat (client w)) (decimalPlaces (client w))) in
  let w' := snd (handleGenerate upstream w) in
  requests w' = requests w ++ [request]
  /\ contents request
     = lit "Generate data in " ++ format (client w)
       ++ lit " format based on this request: "
       ++ dq ++ prompt (client w) ++ dq
  /\ isLoading (client w') = false
  /\ error (client w') = None
  /\ prompt (client w') = prompt (client w)
  /\ format (client w') = format (client w)
  /\ dateFormat (client w') = dateFormat (client w)
  /\ decimalPlaces (client w') = decimalPlaces (client w).
Proof.
  intros H request w'.
  assert (Hc := handleGenerate_client upstream w H). fold request w' in Hc.
  split.
  - subst w'. rewrite (AppFacts.handleGenerate_run upstream w H). cbn [snd].
    unfold updateClient at 1. cbn [requests].
    now rewrite StreamFacts.generateDummyData_requests.
  - split; [reflexivity|]. rewrite Hc. repeat split.
Qed.

Lemma generation_run_witness :
  requests
    (snd (handleGenerate (fun _ => Opened broken)
            {| requests := []; console := [];
               client :=
                 {| prompt := lit " 5 users "; format := DataFormat.XML;
                    dateFormat := lit "DD/MM/YYYY"; decimalPlaces := lit "1";
                    generatedData := empty; isLoading := false;
                    error := Some validationMessage |} |}))
  = [ buildRequest (lit " 5 users ") DataFormat.XML
        (options (lit "DD/MM/YYYY") (lit "1")) ].
Proof.
  exact (proj1 (generation_run (fun _ => Opened broken)
                  {| requests := []; console := [];
                     client :=
                       {| prompt := lit " 5 users "; format := DataFormat.XML;
                          dateFormat := lit "DD/MM/YYYY";
                          decimalPlaces := lit "1";
                          generatedData := empty; isLoading := false;
                          error := Some validationMessage |} |}
                  eq_refl)).
Defined.


End HandlerMore.

(** ** services/geminiService.ts: the formatting rules in the prompt *)

Module PromptMore.
Import GeminiService Pipeline.

Lemma includes_whole (s : jsstring) : includes s s = true.
Proof.
  apply JsFacts.includes_startsWith.
  rewrite <- (app_nil_r s) at 1. apply JsFacts.startsWith_app.
Qed.

Lemma standardPrecision_check :
  forallb (fun b =>
    forallb (fun df =>
      forallb (fun dp =>
        negb (includes (assemble (formattingRules (options df dp)) b)
                (lit "Use standard precision for numbers.")))
        DataInputForm.precisions)
      DataInputForm.dateFormats)
    instructionBlocks = true.
Proof. vm_compute. reflexivity. Qed.

(** Whatever the format and the options, the compiled instruction
    quotes the date format of the options as it is, between double
    quotes. *)
Theorem date_format_is_quoted (format : jsstring) (o : GenerationOptions.t) :
  includes (compileSystemInstruction format o)
    (dq ++ GenerationOptions.dateFormat o ++ dq) = true.
Proof.
  unfold compileSystemInstruction, assemble, formattingRules.
  cbn [join_lf].
  do 11 (apply JsFacts.includes_app_r, PromptFacts.includes_cons).
  apply PromptFacts.includes_app_l, JsFacts.includes_app_r.
  do 2 (apply JsFacts.includes_app_r, PromptFacts.includes_cons).
  apply PromptFacts.includes_app_l, JsFacts.includes_app_r.
  rewrite !app_assoc. apply PromptFacts.includes_app_l.
  rewrite <- app_assoc. apply includes_whole.
Qed.

(** With the options of the form, the instruction asks for standard
    precision exactly when the precision is ["default"]. *)
Theorem standard_precision_iff_default (format : jsstring)
    (o : GenerationOptions.t) :
  validOptions o ->
  (includes (compileSystemInstruction format o)
     (lit "Use standard precision for numbers.") = true
   <-> GenerationOptions.decimalPlaces o = lit "default").
Proof.
  intros Hvalid. pose proof Hvalid as [Hdf Hdp]. split.
  - intros Hin.
    destruct (JsFacts.eqb_eq (GenerationOptions.decimalPlaces o)
                (lit "default")) as [He _].
    destruct (eqb (GenerationOptions.decimalPlaces o) (lit "default")) eqn:E;
      [now apply He|].
    apply JsFacts.eqb_neq in E.
    pose proof (PromptFacts.precision_of_valid o Hvalid E) as Hp.
    pose proof (PromptFacts.forallb_In _ _ _ _ standardPrecision_check
                  (PromptFacts.specificInstructions_cases format)) as H1.
    pose proof (PromptFacts.forallb_In _ _ _ _ H1 Hdf) as H2.
    pose proof (PromptFacts.forallb_In _ _ _ _ H2 Hp) as H3.
    apply negb_true_iff in H3. destruct o as [df dp].
    unfold compileSystemInstruction in Hin. unfold options in H3.
    cbn [GenerationOptions.dateFormat GenerationOptions.decimalPlaces] in H3.
    congruence.
  - intros Hd.
    unfold compileSystemInstruction, assemble, formattingRules.
    rewrite Hd. cbn [join_lf].
    replace (eqb (lit "default") (lit "default")) with true by reflexivity.
    cbn [negb].
    do 11 (apply JsFacts.includes_app_r, PromptFacts.includes_cons).
    apply PromptFacts.includes_app_l, JsFacts.includes_app_r.
    do 5 (apply JsFacts.includes_app_r, PromptFacts.includes_cons).
    apply PromptFacts.includes_app_l, JsFacts.includes_app_r.
    apply includes_whole.
Qed.

Lemma standard_precision_iff_default_witness :
  includes
    (compileSystemInstruction DataFormat.TXT
       (options (lit "MM/DD/YYYY") (lit "default")))
    (lit "Use standard precision for numbers.") = true.
Proof.
  refine (proj2 (standard_precision_iff_default DataFormat.TXT
                   (options (lit "MM/DD/YYYY") (lit "default")) _) eq_refl).
  split; [do 2 right; left; reflexivity | left; reflexivity].
Defined.

End PromptMore.

(** ** App.tsx: what the user sees after a submission *)

Module ViewFacts.
Import GeminiService Pipeline App.

(** After a submission whose stream has yielded some text of at most
    fifty lines, whether the stream then ended or broke: no error banner,
    the panel shows exactly the text, the copy button writes it to the
    clipboard, and the download button, on any page, saves one file
    more, holding the text, under [dummy-data.] followed by the
    lower-cased format, with the MIME type of the format. *)
Theorem generation_is_displayed (upstream : Request -> Upstream)
    (w : World State) (s : ResponseStream) :
  blank (prompt (client w)) = false ->
  upstream
    (buildRequest (prompt (client w)) (format (client w))
       (options (dateFormat (client w)) (decimalPlaces (client w))))
  = Opened s ->
  concat (texts (chunks s)) <> [] ->
  List.length (split_lf (concat (texts (chunks s)))) <= 50 ->
  let s' := client (snd (handleGenerate upstream w)) in
  AppView.render s'
  = {| AppView.banner := None;
       AppView.panel := DataDisplay.Output (concat (texts (chunks s))) None |}
  /\ DataDisplay.handleCopy (AppView.displayProps s')
     = Some (concat (texts (chunks s)))
  /\ forall toLowerCase page,
       Page.saved
         (Page.run
            (DataDisplay.handleDownload toLowerCase (AppView.displayProps s'))
            page)
       = Page.saved page
         ++ [(lit "dummy-data." ++ toLowerCase (format (client w)),
              {| FileUtils.blobParts := concat (texts (chunks s));
                 FileUtils.blobType :=
                   FileUtils.getMimeType (format (client w)) |})].
Proof.
  intros Hb Hs Hne Hlen s'. subst s'.
  rewrite (HandlerMore.handleGenerate_client upstream w Hb), Hs.
  unfold AppView.render, AppView.displayProps, AppView.errorBanner.
  cbn [error generatedData isLoading format].
  split; [|split].
  - f_equal. now apply DataDisplayFacts.render_short.
  - unfold DataDisplay.handleCopy. cbn [DataDisplay.data].
    destruct (concat (texts (chunks s))); [congruence | reflexivity].
  - intros toLowerCase page.
    unfold DataDisplay.handleDownload.
    cbn [DataDisplay.data DataDisplay.format].
    rewrite FileUtilsFacts.run_downloadData.
    destruct (concat (texts (chunks s))); [congruence | reflexivity].
Qed.

Lemma generation_is_displayed_witness :
  AppView.render
    (client
       (snd (handleGenerate
               (fun _ =>
                  Opened
                    {| chunks :=
                         [ {| text := Some (lit "{" ++ dq ++ lit "a" ++ dq
                                              ++ lit ":1}") |} ];
                       ending := None |})
               Samples.staleState)))
  = {| AppView.banner := None;
       AppView.panel :=
         DataDisplay.Output (lit "{" ++ dq ++ lit "a" ++ dq ++ lit ":1}")
           None |}.
Proof.
  refine (proj1 (generation_is_displayed
                   (fun _ =>
                      Opened
                        {| chunks :=
                             [ {| text := Some (lit "{" ++ dq ++ lit "a" ++ dq
                                                  ++ lit ":1}") |} ];
                           ending := None |})
                   Samples.staleState _ eq_refl eq_refl _ _)).
  - discriminate.
  - vm_compute. lia.
Defined.

(** After a blank submission the banner shows the validation message
    and the panel is the one shown before. *)
Theorem blank_submission_view (upstream : Request -> Upstream)
    (w : World State) :
  blank (prompt (client w)) = true ->
  AppView.render (client (snd (handleGenerate upstream w)))
  = {| AppView.banner := Some validationMessage;
       AppView.panel := AppView.panel (AppView.render (client w)) |}.
Proof.
  intros H. rewrite (AppFacts.handleGenerate_blank upstream w H).
  destruct w as [rq cs [p f df dp g l e]]. reflexivity.
Qed.

Lemma blank_submission_view_witness :
  AppView.banner
    (AppView.render
       (client
          (snd (handleGenerate (fun _ => Refused AuthFailure)
                  Samples.blankState))))
  = Some validationMessage.
Proof.
  exact (f_equal AppView.banner
           (blank_submission_view (fun _ => Refused AuthFailure)
              Samples.blankState eq_refl)).
Defined.

End ViewFacts.

(** ** components/DataInputForm.tsx: sessions of the form *)

Module FormFacts.
Import GeminiService Pipeline App Form.

Lemma handleGenerate_requests (upstream : Request -> Upstream)
    (w : World State) :
  blank (prompt (client w)) = false ->
  requests (snd (handleGenerate upstream w))
  = requests w
    ++ [buildRequest (prompt (client w)) (format (client w))
          (options (dateFormat (client w)) (decimalPlaces (client w)))].
Proof.
  intros H. rewrite (AppFacts.handleGenerate_run upstream w H). cbn [snd].
  unfold updateClient at 1. cbn [requests].
  now rewrite StreamFacts.generateDummyData_requests.
Qed.





Lemma example_not_blank (index : nat) (example : jsstring * jsstring) :
  nth_error EXAMPLE_PROMPTS index = Some example ->
  blank (snd example) = false.
Proof.
  intros H.
  do 4 (destruct index as [|index];
        [injection H as <-; vm_compute; reflexivity|]).
  destruct index; discriminate H.
Qed.

(** A click on a quick example followed by a click on the button sends
    one request, for the text of the example, with the format and the
    options of the state. *)
Theorem example_then_generate (index : nat) (example : jsstring * jsstring)
    (upstream : Request -> Upstream) (w : World State) :
  nth_error EXAMPLE_PROMPTS index = Some example ->
  isLoading (client w) = false ->
  requests (session [ClickExample index; ClickGenerate upstream] w)
  = requests w
    ++ [buildRequest (snd example) (format (client w))
          (options (dateFormat (client w)) (decimalPlaces (client w)))].
Proof.
  intros Hnth Hl. pose proof (example_not_blank index example Hnth) as Hb.
  unfold session. cbn [fold_left].
  unfold dispatch at 2. rewrite Hl, Hnth.
  unfold dispatch.
  destruct w as [rq cs [p f df dp g l e]].
  cbn [client isLoading updateClient setPrompt] in *. subst l.
  exact (handleGenerate_requests upstream
           {| requests := rq; console := cs;
              client := {| prompt := snd example; format := f;
                           dateFormat := df; decimalPlaces := dp;
                           generatedData := g; isLoading := false;
                           error := e |} |} Hb).
Qed.

Lemma example_then_generate_witness :
  List.length
    (requests
       (session [ClickExample 2; ClickGenerate (fun _ => Refused QuotaFailure)]
          start))
  = 1.
Proof.
  rewrite (example_then_generate 2
             (lit "Transactions",
              lit "List of 5 financial transactions with id, amount, currency, status, and timestamp")
             (fun _ => Refused QuotaFailure) start eq_refl eq_refl).
  reflexivity.
Defined.

End FormFacts.

(** ** utils/fileUtils.ts: what [downloadData] leaves on the page *)

Module PageFacts.
Import FileUtils Page.

(** Any number of downloads, one after the other: no anchor stays
    attached to the body, no object URL stays live, and the files saved
    are those of the contents that are not empty, in order, each under
    its name and MIME type. *)
Theorem downloads_leave_page_clean (toLowerCase : jsstring -> jsstring)
    (files : list (jsstring * jsstring)) (p : Page.t) :
  attached (downloads toLowerCase files p) = attached p
  /\ liveUrls (downloads toLowerCase files p) = liveUrls p
  /\ saved (downloads toLowerCase files p)
     = saved p
       ++ map (fileOf toLowerCase) (filter (fun f => truthy (fst f)) files).
Proof.
  revert p. induction files as [|[content format] files IH]; intros p.
  - cbn. now rewrite app_nil_r.
  - unfold downloads in *. cbn [fold_left fst snd filter].
    destruct (IH (run (downloadData toLowerCase content format) p))
      as (Ha & Hu & Hs).
    rewrite Ha, Hu, Hs, FileUtilsFacts.run_downloadData.
    destruct (truthy content); cbn [attached liveUrls saved map].
    + repeat split. now rewrite <- app_assoc.
    + repeat split.
Qed.

End PageFacts.

(** ** tests/unit/dataFormatter.test.ts: [validateFormat] *)

Module DataFormatterFacts.
Import DataFormatter.

Lemma includes_unit (c : N) (s : jsstring) :
  includes s [c] = true <-> In c s.
Proof.
  induction s as [|x s IH]; cbn [includes startsWith In].
  - split; [discriminate | tauto].
  - destruct (N.eqb x c) eqn:E.
    + apply N.eqb_eq in E. split; [now left | reflexivity].
    + apply N.eqb_neq in E. rewrite IH. split; [now right|].
      intros [H | H]; [congruence | exact H].
Qed.

Lemma upperUnit_ascii (s : jsstring) :
  forallb isAscii s = true -> forallb isAscii (map upperUnit s) = true.
Proof.
  induction s as [|c s IH]; [reflexivity|]. cbn [forallb map].
  intros H. apply andb_true_iff in H as [Hc Hs]. rewrite (IH Hs).
  rewrite andb_true_r. unfold isAscii, upperUnit in *.
  apply N.ltb_lt in Hc. apply N.ltb_lt.
  destruct (N.leb 97 c && N.leb c 122)%N; lia.
Qed.

Lemma upperUnit_twice (s : jsstring) :
  map upperUnit (map upperUnit s) = map upperUnit s.
Proof.
  rewrite map_map. apply map_ext. intros c. unfold upperUnit.
  destruct (N.leb 97 c && N.leb c 122)%N eqn:E.
  - apply andb_true_iff in E as [E1 E2].
    apply N.leb_le in E1. apply N.leb_le in E2.
    assert (E' : (N.leb 97 (c - 32) && N.leb (c - 32) 122)%N = false).
    { apply andb_false_iff. left. apply N.leb_gt. lia. }
    now rewrite E'.
  - now rewrite E.
Qed.

Section WithEngine.
Variable toUpperCase : jsstring -> jsstring.
Variable jsonParses : jsstring -> bool.
Hypothesis toUpperCase_ascii :
  forall s, forallb isAscii s = true -> toUpperCase s = map upperUnit s.

(** [validateFormat] never throws.  An ASCII format name is read
    without regard to case.  Under the four names: a string is JSON when
    [JSON.parse] takes it, CSV when it holds a line feed or a comma, XML
    when it holds a [<] (the test for [<?xml] adds nothing), and any
    string is TXT, the empty one included. *)
Theorem validateFormat_by_name (data format : jsstring) :
  forallb isAscii format = true ->
  validateFormat toUpperCase jsonParses data format
  = validateFormat toUpperCase jsonParses data (map upperUnit format)
  /\ validateFormat toUpperCase jsonParses data (lit "JSON") = jsonParses data
  /\ (validateFormat toUpperCase jsonParses data (lit "CSV") = true
      <-> In lf data \/ In 44%N data)
  /\ (validateFormat toUpperCase jsonParses data (lit "XML") = true
      <-> In 60%N data)
  /\ validateFormat toUpperCase jsonParses data (lit "TXT") = true.
Proof.
  intros Hascii.
  assert (Hname : forall name,
            forallb isAscii name = true -> map upperUnit name = name ->
            toUpperCase name = name).
  { intros name Ha Hm. now rewrite toUpperCase_ascii, Hm. }
  split; [|split; [|split; [|split]]].
  - unfold validateFormat.
    rewrite (toUpperCase_ascii format Hascii).
    rewrite (toUpperCase_ascii _ (upperUnit_ascii format Hascii)).
    now rewrite upperUnit_twice.
  - unfold validateFormat.
    rewrite (Hname (lit "JSON") eq_refl eq_refl).
    replace (eqb (lit "JSON") (lit "JSON")) with true by reflexivity.
    now destruct (jsonParses data).
  - unfold validateFormat.
    rewrite (Hname (lit "CSV") eq_refl eq_refl).
    replace (eqb (lit "CSV") (lit "JSON")) with false by reflexivity.
    replace (eqb (lit "CSV") (lit "CSV")) with true by reflexivity.
    rewrite orb_true_iff.
    change (lit ",") with [44%N]. now rewrite !includes_unit.
  - unfold validateFormat.
    rewrite (Hname (lit "XML") eq_refl eq_refl).
    replace (eqb (lit "XML") (lit "JSON")) with false by reflexivity.
    replace (eqb (lit "XML") (lit "CSV")) with false by reflexivity.
    replace (eqb (lit "XML") (lit "XML")) with true by reflexivity.
    rewrite orb_true_iff. change (lit "<") with [60%N].
    rewrite includes_unit. split.
    + intros [H | H]; [|exact H].
      apply includes_unit.
      exact (JsFacts.includes_prefix data [60%N] (lit "?xml") H).
    + now right.
  - unfold validateFormat.
    now rewrite (Hname (lit "TXT") eq_refl eq_refl).
Qed.
End WithEngine.

Lemma validateFormat_by_name_witness :
  validateFormat (map upperUnit) (fun _ => false) (lit "<data></data>")
    (lit "xml") = true.
Proof.
  destruct (validateFormat_by_name (map upperUnit) (fun _ => false)
              (fun s _ => eq_refl) (lit "<data></data>") (lit "xml") eq_refl)
    as (Hcase & _ & _ & Hxml & _).
  rewrite Hcase. apply Hxml. left. reflexivity.
Defined.

End DataFormatterFacts.
